(** * Ilitek ILI9488 MIPI-DSI panel driver: lifecycle, power sequencing, modes

    A shallow embedding of [panel-ilitek-ili9488.c].  The driver talks to
    the kernel through regulator, GPIO, delay, logging and MIPI-DSI "multi"
    helpers.  Every such call is recorded, in program order, in a trace
    that is threaded through the driver functions together with the
    driver-private [struct ili9488].  Return codes are C [int]s, kept as
    [Z]; the driver only tests their sign or compares them with zero.

    Covered: the descriptor data, [power_on], [power_off], [activate],
    [deactivate], [prepare], [unprepare], [get_modes], [get_orientation],
    the match table, and, with a log of kernel calls of their own, [probe]
    and [remove]. *)

From Stdlib Require Import ZArith List Lia Bool String.
Import ListNotations.
Local Open Scope string_scope.
Local Open Scope list_scope.
Local Open Scope Z_scope.

(** ** Kernel objects

    The driver holds these by pointer and never looks inside; a handle is
    the identity of the object. *)

Definition mipi_dsi_device := nat.
Definition gpio_desc := nat.
Definition regulator := nat.

(** [enum drm_panel_orientation] is a C enum, an [int]. *)
Definition drm_panel_orientation := Z.

(** The bits named in the source.  An or of distinct one-bit flags is kept
    as the list of the flags set, so that no numeric value of a header
    that is not part of the driver is invented. *)
Inductive drm_mode_flag := DRM_MODE_FLAG_NHSYNC | DRM_MODE_FLAG_NVSYNC.
Inductive drm_mode_type := DRM_MODE_TYPE_DRIVER | DRM_MODE_TYPE_PREFERRED.
Inductive mipi_dsi_mode_flag :=
| MIPI_DSI_MODE_VIDEO
| MIPI_DSI_MODE_VIDEO_SYNC_PULSE
| MIPI_DSI_MODE_LPM
| MIPI_DSI_CLOCK_NON_CONTINUOUS.
Inductive mipi_dsi_pixel_format := MIPI_DSI_FMT_RGB666_PACKED.

Record drm_display_mode := {
  clock : Z;
  hdisplay : Z;
  hsync_start : Z;
  hsync_end : Z;
  htotal : Z;
  vdisplay : Z;
  vsync_start : Z;
  vsync_end : Z;
  vtotal : Z;
  width_mm : Z;
  height_mm : Z;
  flags : list drm_mode_flag;
  mode_type : list drm_mode_type
}.

(** ** The trace of kernel calls *)

(** The DCS writes the driver asks for: a raw command with its payload
    ([mipi_dsi_dcs_write_seq_multi]) or one of the four named commands. *)
Inductive dcs_command :=
| DcsWriteSeq (cmd : Z) (payload : list Z)
| DcsExitSleepMode
| DcsSetDisplayOn
| DcsSetDisplayOff
| DcsEnterSleepMode.

(** What the driver can ask of a [struct mipi_dsi_multi_context]. *)
Inductive multi_op :=
| MultiWrite (c : dcs_command)
| MultiMsleep (ms : Z).

(** What a multi helper does below the driver: a transfer on the command
    bus, or a sleep of the calling thread. *)
Inductive bus_event :=
| BusWrite (c : dcs_command)
| BusSleep (ms : Z).

Inductive event :=
| RegulatorEnable (r : regulator) (result : Z)
| RegulatorDisable (r : regulator) (result : Z)
| GpiodSetValue (g : gpio_desc) (value : Z)
| UsleepRange (min max : Z)
| DevErr (dev : mipi_dsi_device) (msg : string) (code : Z)
| MultiCall (dev : mipi_dsi_device) (op : multi_op)
| Bus (dev : mipi_dsi_device) (b : bus_event).

Definition trace := list event.

(** ** State passing *)

Definition St (S A : Type) : Type := S -> A * S.

Definition mret {S A : Type} (a : A) : St S A := fun s => (a, s).

Definition bind {S A B : Type} (m : St S A) (k : A -> St S B) : St S B :=
  fun s => let (a, s') := m s in k a s'.

Declare Scope st_scope.
Delimit Scope st_scope with st.
Notation "x <- m ;; k" := (bind m (fun x => k))
  (at level 61, m at next level, right associativity) : st_scope.
Notation "m ;; k" := (bind m (fun _ => k))
  (at level 61, right associativity) : st_scope.
Local Open Scope st_scope.

(** Code that only reaches the hardware: the multi helpers and the
    per-model init callback, which receive nothing but the context. *)
Definition H (A : Type) : Type := St trace A.

Definition emit (e : event) : H unit := fun tr => (tt, tr ++ [e]).

(** ** Driver data *)

Record mipi_dsi_multi_context := {
  ctx_dsi : mipi_dsi_device;
  accum_err : Z
}.

(** [init_sequence] is a function pointer that may be NULL. *)
Record ili9488_desc := {
  display_mode : drm_display_mode;
  mode_flags : list mipi_dsi_mode_flag;
  format : mipi_dsi_pixel_format;
  lanes : Z;
  init_sequence : option (mipi_dsi_multi_context -> H mipi_dsi_multi_context)
}.

(** Of the embedded [struct drm_panel] the driver touches one field. *)
Record drm_panel := {
  prepare_prev_first : bool
}.

Record ili9488 := {
  panel : drm_panel;
  dsi : mipi_dsi_device;
  reset : gpio_desc;
  power : regulator;
  desc : ili9488_desc;
  orientation : drm_panel_orientation
}.

(** Memory as a driver entry point sees it: the instance behind the
    [struct drm_panel *] it is handed, and the world outside. *)
Record driver_state := {
  inst : ili9488;
  hw : trace
}.

Definition D (A : Type) : Type := St driver_state A.

(** [ili->field] *)
Definition read {A : Type} (field : ili9488 -> A) : D A :=
  fun s => (field (inst s), s).

Definition lift {A : Type} (m : H A) : D A :=
  fun s => let (a, tr) := m (hw s) in (a, {| inst := inst s; hw := tr |}).

(** ** The environment

    What the regulator framework answers is not the driver's to decide:
    an answer may depend on everything that happened so far. *)
Record hw_env := {
  regulator_enable_ret : trace -> regulator -> Z;
  regulator_disable_ret : trace -> regulator -> Z
}.

(** The behaviour of the MIPI-DSI multi helpers, which belong to the
    kernel: given the request, the context and the history (the call itself
    included), the context's new [accum_err] and what happens on the bus. *)
Definition multi_sem : Type :=
  multi_op -> mipi_dsi_multi_context -> trace -> Z * list bus_event.

Section Driver.

Variable E : hw_env.
Variable MS : multi_sem.

Definition regulator_enable (r : regulator) : H Z :=
  fun tr => let v := regulator_enable_ret E tr r in
            (v, tr ++ [RegulatorEnable r v]).

Definition regulator_disable (r : regulator) : H Z :=
  fun tr => let v := regulator_disable_ret E tr r in
            (v, tr ++ [RegulatorDisable r v]).

Definition gpiod_set_value_cansleep (g : gpio_desc) (value : Z) : H unit :=
  emit (GpiodSetValue g value).

Definition usleep_range (min max : Z) : H unit := emit (UsleepRange min max).

Definition dev_err (dev : mipi_dsi_device) (msg : string) (code : Z) : H unit :=
  emit (DevErr dev msg code).

(** One call of a multi helper on [ctx]: the call is recorded, then the
    helper does what [MS] says.  [ctx->dsi] is not the helper's to change. *)
Definition multi_exec (op : multi_op) (ctx : mipi_dsi_multi_context)
  : H mipi_dsi_multi_context :=
  fun tr =>
    let tr1 := tr ++ [MultiCall (ctx_dsi ctx) op] in
    let (err, bus) := MS op ctx tr1 in
    ({| ctx_dsi := ctx_dsi ctx; accum_err := err |},
     tr1 ++ map (Bus (ctx_dsi ctx)) bus).

Definition mipi_dsi_dcs_write_seq_multi (ctx : mipi_dsi_multi_context)
    (cmd : Z) (payload : list Z) : H mipi_dsi_multi_context :=
  multi_exec (MultiWrite (DcsWriteSeq cmd payload)) ctx.

Definition mipi_dsi_dcs_exit_sleep_mode_multi (ctx : mipi_dsi_multi_context)
  : H mipi_dsi_multi_context :=
  multi_exec (MultiWrite DcsExitSleepMode) ctx.

Definition mipi_dsi_dcs_set_display_on_multi (ctx : mipi_dsi_multi_context)
  : H mipi_dsi_multi_context :=
  multi_exec (MultiWrite DcsSetDisplayOn) ctx.

Definition mipi_dsi_dcs_set_display_off_multi (ctx : mipi_dsi_multi_context)
  : H mipi_dsi_multi_context :=
  multi_exec (MultiWrite DcsSetDisplayOff) ctx.

Definition mipi_dsi_dcs_enter_sleep_mode_multi (ctx : mipi_dsi_multi_context)
  : H mipi_dsi_multi_context :=
  multi_exec (MultiWrite DcsEnterSleepMode) ctx.

Definition mipi_dsi_msleep (ctx : mipi_dsi_multi_context) (ms : Z)
  : H mipi_dsi_multi_context :=
  multi_exec (MultiMsleep ms) ctx.

(** ** The driver *)

Definition e35gh_i_mw800cb_init (ctx : mipi_dsi_multi_context)
  : H mipi_dsi_multi_context :=
  (* Gamma control 1,2 *)
  ctx <- mipi_dsi_dcs_write_seq_multi ctx 0xE0
           [0x00; 0x10; 0x14; 0x01; 0x0E; 0x04; 0x33;
            0x56; 0x48; 0x03; 0x0C; 0x0B; 0x2B; 0x34; 0x0F] ;;
  ctx <- mipi_dsi_dcs_write_seq_multi ctx 0xE1
           [0x00; 0x12; 0x18; 0x05; 0x12; 0x06; 0x40;
            0x34; 0x57; 0x06; 0x10; 0x0C; 0x3B; 0x3F; 0x0F] ;;
  (* Power control 1,2 *)
  ctx <- mipi_dsi_dcs_write_seq_multi ctx 0xC0 [0x0F; 0x0C] ;;
  ctx <- mipi_dsi_dcs_write_seq_multi ctx 0xC1 [0x41] ;;
  (* VCOM Control *)
  ctx <- mipi_dsi_dcs_write_seq_multi ctx 0xC5 [0x00; 0x25; 0x80] ;;
  ctx <- mipi_dsi_dcs_write_seq_multi ctx 0x36 [0x48] ;;
  (* Interface pixel format 18bpp *)
  ctx <- mipi_dsi_dcs_write_seq_multi ctx 0x3A [0x66] ;;
  ctx <- mipi_dsi_dcs_write_seq_multi ctx 0xB0 [0x00] ;;
  ctx <- mipi_dsi_dcs_write_seq_multi ctx 0xB1 [0xA0] ;;
  ctx <- mipi_dsi_dcs_write_seq_multi ctx 0xB4 [0x02] ;;
  ctx <- mipi_dsi_dcs_write_seq_multi ctx 0xB6 [0x02; 0x02; 0x3B] ;;
  ctx <- mipi_dsi_dcs_write_seq_multi ctx 0xE9 [0x00] ;;
  ctx <- mipi_dsi_dcs_write_seq_multi ctx 0xF7 [0xA9; 0x51; 0x2C; 0x82] ;;
  mipi_dsi_dcs_write_seq_multi ctx 0x21 [0x00].

Definition e35gh_i_mw800cb_display_mode : drm_display_mode := {|
  clock := 14256;
  hdisplay := 320;
  hsync_start := 320 + 60;
  hsync_end := 320 + 60 + 20;
  htotal := 320 + 60 + 20 + 40;
  vdisplay := 480;
  vsync_start := 480 + 20;
  vsync_end := 480 + 20 + 10;
  vtotal := 480 + 20 + 10 + 30;
  width_mm := 48;
  height_mm := 73;
  flags := [DRM_MODE_FLAG_NHSYNC; DRM_MODE_FLAG_NVSYNC];
  mode_type := [DRM_MODE_TYPE_DRIVER; DRM_MODE_TYPE_PREFERRED]
|}.

Definition ili9488_power_on : D Z :=
  dsi <- read dsi ;;
  p <- read power ;;
  ret <- lift (regulator_enable p) ;;
  if ret <? 0 then
    lift (dev_err dsi "regulator enable failed: %d\n" ret) ;;
    mret ret
  else
    r <- read reset ;;
    lift (gpiod_set_value_cansleep r 0) ;;
    lift (usleep_range 1000 5000) ;;
    lift (gpiod_set_value_cansleep r 1) ;;
    lift (usleep_range 1000 5000) ;;
    lift (gpiod_set_value_cansleep r 0) ;;
    lift (usleep_range 5000 10000) ;;
    mret 0.

Definition ili9488_power_off : D Z :=
  dsi <- read dsi ;;
  r <- read reset ;;
  lift (gpiod_set_value_cansleep r 1) ;;
  p <- read power ;;
  ret <- lift (regulator_disable p) ;;
  (if ret =? 0 then mret tt
   else lift (dev_err dsi "regulator disable failed: %d\n" ret)) ;;
  mret ret.

Definition ili9488_activate : D Z :=
  dsi <- read dsi ;;
  let ctx := {| ctx_dsi := dsi; accum_err := 0 |} in
  init <- read (fun ili => init_sequence (desc ili)) ;;
  ctx <- match init with
         | Some f => lift (f ctx)
         | None => mret ctx
         end ;;
  ctx <- lift (mipi_dsi_dcs_exit_sleep_mode_multi ctx) ;;
  ctx <- lift (mipi_dsi_msleep ctx 120) ;;
  ctx <- lift (mipi_dsi_dcs_set_display_on_multi ctx) ;;
  mret (accum_err ctx).

Definition ili9488_prepare : D Z :=
  ret <- ili9488_power_on ;;
  if negb (ret =? 0) then mret ret
  else
    ret <- ili9488_activate ;;
    if negb (ret =? 0) then
      ili9488_power_off ;;
      mret ret
    else mret 0.

Definition ili9488_deactivate : D Z :=
  dsi <- read dsi ;;
  let ctx := {| ctx_dsi := dsi; accum_err := 0 |} in
  ctx <- lift (mipi_dsi_dcs_set_display_off_multi ctx) ;;
  ctx <- lift (mipi_dsi_dcs_enter_sleep_mode_multi ctx) ;;
  ctx <- lift (mipi_dsi_msleep ctx 120) ;;
  mret (accum_err ctx).

Definition ili9488_unprepare : D Z :=
  dsi <- read dsi ;;
  ili9488_deactivate ;;
  ret <- ili9488_power_off ;;
  (if ret <? 0 then lift (dev_err dsi "power off failed: %d\n" ret)
   else mret tt) ;;
  mret ret.

(** The connector the framework passes to [get_modes], and the framework's
    [drm_connector_helper_get_modes_fixed], which is not the driver's:
    whatever it does with the connector and the mode it is handed. *)
Variable drm_connector : Type.
Variable drm_connector_helper_get_modes_fixed :
  drm_connector -> drm_display_mode -> Z * drm_connector.

Definition ili9488_get_modes (connector : drm_connector)
  : D (Z * drm_connector) :=
  mode <- read (fun ili => display_mode (desc ili)) ;;
  mret (drm_connector_helper_get_modes_fixed connector mode).

Definition ili9488_get_orientation : D drm_panel_orientation :=
  read orientation.

Definition e35gh_i_mw800cb_desc : ili9488_desc := {|
  init_sequence := Some e35gh_i_mw800cb_init;
  display_mode := e35gh_i_mw800cb_display_mode;
  mode_flags := [MIPI_DSI_MODE_VIDEO; MIPI_DSI_MODE_VIDEO_SYNC_PULSE;
                 MIPI_DSI_MODE_LPM; MIPI_DSI_CLOCK_NON_CONTINUOUS];
  format := MIPI_DSI_FMT_RGB666_PACKED;
  lanes := 1
|}.

Definition ili9488_of_match : list (string * ili9488_desc) :=
  [("focuslcd,e35gh-i-mw800cb", e35gh_i_mw800cb_desc)].

End Driver.

(** ** The host framework's view

    The driver keeps no record of whether the panel is prepared; the
    framework that calls [prepare] and [unprepare] does. *)

Inductive lifecycle := Unprepared | Prepared.

Record panel_state := {
  life : lifecycle;
  drv : driver_state
}.

(** Modelled from the spec: the bookkeeping of the two public states, which
    is the host framework's and not in the driver.  A [prepare] that
    succeeds moves the instance to Prepared, one that fails leaves it where
    it was. *)
Definition host_prepare (E : hw_env) (MS : multi_sem) : St panel_state Z :=
  fun ps =>
    let (ret, s) := ili9488_prepare E MS (drv ps) in
    (ret, {| life := if ret =? 0 then Prepared else life ps; drv := s |}).

(** Modelled from the spec: after [unprepare] the instance is considered
    Unprepared whether or not powering off succeeded; this too is the host
    framework's bookkeeping. *)
Definition host_unprepare (E : hw_env) (MS : multi_sem) : St panel_state Z :=
  fun ps =>
    let (ret, s) := ili9488_unprepare E MS (drv ps) in
    (ret, {| life := Unprepared; drv := s |}).

(** The framework's calls into the driver, one after the other. *)
Inductive panel_call := CallPrepare | CallUnprepare.

Definition run_call (E : hw_env) (MS : multi_sem) (c : panel_call) : D Z :=
  match c with
  | CallPrepare => ili9488_prepare E MS
  | CallUnprepare => ili9488_unprepare E MS
  end.

Fixpoint run_calls (E : hw_env) (MS : multi_sem) (cs : list panel_call)
    (s : driver_state) : driver_state :=
  match cs with
  | [] => s
  | c :: cs' => run_calls E MS cs' (snd (run_call E MS c s))
  end.

(** Modelled from the spec: [get_modes() -> single fixed mode].  The
    framework helper, absent from the driver, puts the one mode it is
    handed on the connector and reports one mode. *)
Definition get_modes_fixed_spec (connector : list drm_display_mode)
    (mode : drm_display_mode) : Z * list drm_display_mode :=
  (1, connector ++ [mode]).

(** ** Command batches *)

(** A batch as a list of requests run in order on one context. *)
Fixpoint run_batch (MS : multi_sem) (ops : list multi_op)
    (ctx : mipi_dsi_multi_context) : H mipi_dsi_multi_context :=
  match ops with
  | [] => mret ctx
  | op :: ops' => ctx' <- multi_exec MS op ctx ;; run_batch MS ops' ctx'
  end.

(** The requests [e35gh_i_mw800cb_init] makes, as data. *)
Definition e35gh_i_mw800cb_init_ops : list multi_op :=
  map (fun w => MultiWrite (DcsWriteSeq (fst w) (snd w)))
    [(0xE0, [0x00; 0x10; 0x14; 0x01; 0x0E; 0x04; 0x33;
             0x56; 0x48; 0x03; 0x0C; 0x0B; 0x2B; 0x34; 0x0F]);
     (0xE1, [0x00; 0x12; 0x18; 0x05; 0x12; 0x06; 0x40;
             0x34; 0x57; 0x06; 0x10; 0x0C; 0x3B; 0x3F; 0x0F]);
     (0xC0, [0x0F; 0x0C]);
     (0xC1, [0x41]);
     (0xC5, [0x00; 0x25; 0x80]);
     (0x36, [0x48]);
     (0x3A, [0x66]);
     (0xB0, [0x00]);
     (0xB1, [0xA0]);
     (0xB4, [0x02]);
     (0xB6, [0x02; 0x02; 0x3B]);
     (0xE9, [0x00]);
     (0xF7, [0xA9; 0x51; 0x2C; 0x82]);
     (0x21, [0x00])].

Definition activate_tail_ops : list multi_op :=
  [MultiWrite DcsExitSleepMode; MultiMsleep 120; MultiWrite DcsSetDisplayOn].

Definition deactivate_ops : list multi_op :=
  [MultiWrite DcsSetDisplayOff; MultiWrite DcsEnterSleepMode; MultiMsleep 120].

(** What the command transport answers to a transfer: negative for a
    failure, as everywhere in the driver. *)
Definition transport : Type := trace -> dcs_command -> Z.

(** Modelled from the spec: the Command Batch.  The multi helpers are
    kernel code, absent from the driver.  By the spec a write is always
    issued to the bus, a sleep always happens, and the context's single
    error slot takes the first failure and keeps it.  Nothing in the driver
    depends on this choice: every property of the driver functions below
    that is not about the bus itself is proved for an arbitrary
    [multi_sem]. *)
Definition multi_spec (T : transport) : multi_sem :=
  fun op ctx tr =>
    match op with
    | MultiWrite c =>
        let r := T tr c in
        (if accum_err ctx =? 0 then (if r <? 0 then r else 0)
         else accum_err ctx,
         [BusWrite c])
    | MultiMsleep ms => (accum_err ctx, [BusSleep ms])
    end.

(** The events one request leaves in the trace under [multi_spec]. *)
Definition spec_events (d : mipi_dsi_device) (op : multi_op) : list event :=
  match op with
  | MultiWrite c => [MultiCall d op; Bus d (BusWrite c)]
  | MultiMsleep ms => [MultiCall d op; Bus d (BusSleep ms)]
  end.

(** ** Reading a trace *)

Definition is_multi_call (e : event) : bool :=
  match e with MultiCall _ _ => true | _ => false end.

Definition is_dsi_event (e : event) : bool :=
  match e with MultiCall _ _ | Bus _ _ => true | _ => false end.

Definition is_gpiod_set_value (e : event) : bool :=
  match e with GpiodSetValue _ _ => true | _ => false end.

(** A supply enable that went through: a completed [power_on]. *)
Definition is_power_on (e : event) : bool :=
  match e with RegulatorEnable _ v => 0 <=? v | _ => false end.

(** A call of [regulator_disable]: a [power_off]. *)
Definition is_power_off (e : event) : bool :=
  match e with RegulatorDisable _ _ => true | _ => false end.

Definition count (p : event -> bool) (tr : trace) : Z :=
  Z.of_nat (List.length (filter p tr)).

(** Supply enables not yet matched by a [power_off]. *)
Definition outstanding (tr : trace) : Z :=
  count is_power_on tr - count is_power_off tr.

(** An init callback that reaches the hardware through the multi helpers
    only: it extends the trace, and with DSI events alone. *)
Definition dsi_only (f : mipi_dsi_multi_context -> H mipi_dsi_multi_context)
  : Prop :=
  forall ctx tr, exists evs,
    snd (f ctx tr) = tr ++ evs /\ forallb is_dsi_event evs = true.

Definition desc_dsi_only (d : ili9488_desc) : Prop :=
  match init_sequence d with
  | Some f => dsi_only f
  | None => True
  end.

(** [device_get_match_data]: the descriptor registered for a compatible
    string, if any. *)
Fixpoint device_get_match_data (table : list (string * ili9488_desc))
    (compatible : string) : option ili9488_desc :=
  match table with
  | [] => None
  | (name, d) :: table' =>
      if String.eqb name compatible then Some d
      else device_get_match_data table' compatible
  end.

(** The first failure in a batch under [multi_spec]: the answer of the
    first transfer that the transport refuses, zero when none is. *)
Fixpoint first_failure (T : transport) (d : mipi_dsi_device)
    (ops : list multi_op) (tr : trace) : Z :=
  match ops with
  | [] => 0
  | MultiWrite c :: ops' =>
      let r := T (tr ++ [MultiCall d (MultiWrite c)]) c in
      if r <? 0 then r
      else first_failure T d ops' (tr ++ spec_events d (MultiWrite c))
  | MultiMsleep ms :: ops' =>
      first_failure T d ops' (tr ++ spec_events d (MultiMsleep ms))
  end.

(** ** Concrete instances *)

Definition sample_ili (MS : multi_sem) : ili9488 := {|
  panel := {| prepare_prev_first := true |};
  dsi := 7%nat;
  reset := 8%nat;
  power := 9%nat;
  desc := e35gh_i_mw800cb_desc MS;
  orientation := 0
|}.

Definition sample_state (MS : multi_sem) : driver_state :=
  {| inst := sample_ili MS; hw := [] |}.

(** Every regulator call succeeds. *)
Definition env_ok : hw_env := {|
  regulator_enable_ret := fun _ _ => 0;
  regulator_disable_ret := fun _ _ => 0
|}.

(** The supply cannot be enabled: [-EINVAL]. *)
Definition env_enable_fails : hw_env := {|
  regulator_enable_ret := fun _ _ => -22;
  regulator_disable_ret := fun _ _ => 0
|}.

(** The supply comes up but cannot be switched off again: [-EBUSY]. *)
Definition env_disable_fails : hw_env := {|
  regulator_enable_ret := fun _ _ => 0;
  regulator_disable_ret := fun _ _ => -16
|}.

Definition transport_ok : transport := fun _ _ => 0.

(** Display-on is refused with [-EIO], everything else goes through. *)
Definition transport_display_on_fails : transport :=
  fun _ c => match c with DcsSetDisplayOn => -5 | _ => 0 end.

(** Display-off is refused with [-EIO], enter-sleep with [-ETIMEDOUT]. *)
Definition transport_teardown_fails : transport :=
  fun _ c =>
    match c with
    | DcsSetDisplayOff => -5
    | DcsEnterSleepMode => -110
    | _ => 0
    end.

(** ** Reading more of a trace *)

(** The level last written to the line [g], starting from [cur]. *)
Definition line_level_from (g : gpio_desc) (cur : option Z) (tr : trace)
  : option Z :=
  fold_left
    (fun lvl e =>
       match e with
       | GpiodSetValue g' v => if Nat.eqb g' g then Some v else lvl
       | _ => lvl
       end)
    tr cur.

Definition line_level (g : gpio_desc) (tr : trace) : option Z :=
  line_level_from g None tr.

(** An event on a regulator, a GPIO line or a log of the instance's own, or
    an event that names none of them. *)
Definition on_own_resources (ili : ili9488) (e : event) : bool :=
  match e with
  | RegulatorEnable r _ | RegulatorDisable r _ => Nat.eqb r (power ili)
  | GpiodSetValue g _ => Nat.eqb g (reset ili)
  | DevErr d _ _ => Nat.eqb d (dsi ili)
  | UsleepRange _ _ | MultiCall _ _ | Bus _ _ => true
  end.

(** Over a run of calls: one for each [prepare] that returned zero, minus
    one for each [unprepare]. *)
Fixpoint net_prepares (E : hw_env) (MS : multi_sem) (cs : list panel_call)
    (s : driver_state) : Z :=
  match cs with
  | [] => 0
  | c :: cs' =>
      let (r, s') := run_call E MS c s in
      match c with
      | CallPrepare => if r =? 0 then 1 else 0
      | CallUnprepare => -1
      end + net_prepares E MS cs' s'
  end.

(** ** Attach and detach

    [ili9488_dsi_probe] and [ili9488_dsi_remove] are sequences of calls
    into the kernel.  Pointers are kept as the [nat] they are elsewhere;
    [NULL] is zero.  What tells an error pointer from a valid one, and what
    [dev_err_probe] returns, is the kernel's. *)

Definition NULL : nat := 0%nat.

Record err_api := {
  IS_ERR : nat -> bool;
  PTR_ERR : nat -> Z;
  dev_err_probe_ret : Z -> Z
}.

(** What the kernel answers at attach and detach time.  Each of these
    calls is made at most once by [probe] or [remove]. *)
Record attach_env := {
  panel_alloc_ptr : nat;
  gpiod_get_ptr : nat;
  regulator_get_ptr : nat;
  orientation_ret : Z;
  orientation_out : option drm_panel_orientation;
  backlight_ret : Z;
  attach_ret : Z;
  detach_ret : Z
}.

Inductive gpiod_flags := GPIOD_OUT_LOW.

Inductive probe_event :=
| PanelAlloc (p : nat)
| SetDrvdata (dev : mipi_dsi_device) (p : nat)
| GpiodGet (con_id : string) (flags : gpiod_flags) (p : nat)
| RegulatorGet (id : string) (p : nat)
| GetPanelOrientation (result : Z)
| PanelOfBacklight (result : Z)
| PanelAdd (p : nat)
| PanelRemove (p : nat)
| DsiAttach (dev : mipi_dsi_device) (result : Z)
| DsiDetach (dev : mipi_dsi_device) (result : Z)
| DevErrProbe (err : Z) (msg : string)
| DevErrDetach (dev : mipi_dsi_device) (msg : string) (code : Z).

(** Memory and kernel state at attach time: the object behind the pointer
    [devm_drm_panel_alloc] returned, the fields of the DSI device the
    driver writes, the device's driver data, and the calls made. *)
Record probe_state := {
  cell : option ili9488;
  drvdata : option nat;
  dsi_mode_flags : list mipi_dsi_mode_flag;
  dsi_format : option mipi_dsi_pixel_format;
  dsi_lanes : Z;
  plog : list probe_event
}.

Definition P (A : Type) : Type := St probe_state A.

Definition plog_emit (e : probe_event) : P unit :=
  fun w => (tt, {| cell := cell w; drvdata := drvdata w;
                   dsi_mode_flags := dsi_mode_flags w;
                   dsi_format := dsi_format w; dsi_lanes := dsi_lanes w;
                   plog := plog w ++ [e] |}).

Definition set_cell (c : option ili9488) : P unit :=
  fun w => (tt, {| cell := c; drvdata := drvdata w;
                   dsi_mode_flags := dsi_mode_flags w;
                   dsi_format := dsi_format w; dsi_lanes := dsi_lanes w;
                   plog := plog w |}).

(** [ili->field = v] *)
Definition update_cell (f : ili9488 -> ili9488) : P unit :=
  fun w => set_cell (option_map f (cell w)) w.

Definition with_dsi (v : mipi_dsi_device) (ili : ili9488) : ili9488 :=
  {| panel := panel ili; dsi := v; reset := reset ili; power := power ili;
     desc := desc ili; orientation := orientation ili |}.

Definition with_reset (v : gpio_desc) (ili : ili9488) : ili9488 :=
  {| panel := panel ili; dsi := dsi ili; reset := v; power := power ili;
     desc := desc ili; orientation := orientation ili |}.

Definition with_power (v : regulator) (ili : ili9488) : ili9488 :=
  {| panel := panel ili; dsi := dsi ili; reset := reset ili; power := v;
     desc := desc ili; orientation := orientation ili |}.

Definition with_orientation (v : drm_panel_orientation) (ili : ili9488)
  : ili9488 :=
  {| panel := panel ili; dsi := dsi ili; reset := reset ili;
     power := power ili; desc := desc ili; orientation := v |}.

Definition with_prepare_prev_first (v : bool) (ili : ili9488) : ili9488 :=
  {| panel := {| prepare_prev_first := v |}; dsi := dsi ili;
     reset := reset ili; power := power ili; desc := desc ili;
     orientation := orientation ili |}.

Definition mipi_dsi_set_drvdata (dev : mipi_dsi_device) (p : nat) : P unit :=
  fun w =>
    plog_emit (SetDrvdata dev p)
      {| cell := cell w; drvdata := Some p;
         dsi_mode_flags := dsi_mode_flags w; dsi_format := dsi_format w;
         dsi_lanes := dsi_lanes w; plog := plog w |}.

(** [dsi->mode_flags], [dsi->format] and [dsi->lanes] *)
Definition set_dsi_config (d : ili9488_desc) : P unit :=
  fun w => (tt, {| cell := cell w; drvdata := drvdata w;
                   dsi_mode_flags := mode_flags d;
                   dsi_format := Some (format d); dsi_lanes := lanes d;
                   plog := plog w |}).

Section Attach.

Variable K : err_api.
Variable A : attach_env.

Definition dev_err_probe (err : Z) (msg : string) : P Z :=
  plog_emit (DevErrProbe err msg) ;; mret (dev_err_probe_ret K err).

Definition devm_gpiod_get (con_id : string) (flags : gpiod_flags) : P nat :=
  plog_emit (GpiodGet con_id flags (gpiod_get_ptr A)) ;;
  mret (gpiod_get_ptr A).

Definition devm_regulator_get (id : string) : P nat :=
  plog_emit (RegulatorGet id (regulator_get_ptr A)) ;;
  mret (regulator_get_ptr A).

(** Stores through [&ili->orientation] what the helper stores, if
    anything, and returns the helper's result. *)
Definition of_drm_get_panel_orientation : P Z :=
  plog_emit (GetPanelOrientation (orientation_ret A)) ;;
  match orientation_out A with
  | Some o => update_cell (with_orientation o)
  | None => mret tt
  end ;;
  mret (orientation_ret A).

Definition drm_panel_of_backlight : P Z :=
  plog_emit (PanelOfBacklight (backlight_ret A)) ;; mret (backlight_ret A).

Definition drm_panel_add (p : nat) : P unit := plog_emit (PanelAdd p).

Definition drm_panel_remove (p : nat) : P unit := plog_emit (PanelRemove p).

Definition mipi_dsi_attach (dev : mipi_dsi_device) : P Z :=
  plog_emit (DsiAttach dev (attach_ret A)) ;; mret (attach_ret A).

Definition mipi_dsi_detach (dev : mipi_dsi_device) : P Z :=
  plog_emit (DsiDetach dev (detach_ret A)) ;; mret (detach_ret A).

(** [probe] from the point where the allocation succeeded and the match
    data [d] is there.  The allocation is zeroed memory, and the first
    store into it is [ili->desc]. *)
Definition ili9488_dsi_probe_matched (dev : mipi_dsi_device)
    (d : ili9488_desc) : P Z :=
  let ili := panel_alloc_ptr A in
  set_cell (Some {| panel := {| prepare_prev_first := false |};
                    dsi := NULL; reset := NULL; power := NULL;
                    desc := d; orientation := 0 |}) ;;
  mipi_dsi_set_drvdata dev ili ;;
  update_cell (with_dsi dev) ;;
  set_dsi_config d ;;
  r <- devm_gpiod_get "reset" GPIOD_OUT_LOW ;;
  update_cell (with_reset r) ;;
  if IS_ERR K r then
    dev_err_probe (PTR_ERR K r) "failed to get reset-gpios\n"
  else
    p <- devm_regulator_get "power" ;;
    update_cell (with_power p) ;;
    if IS_ERR K p then
      dev_err_probe (PTR_ERR K p) "failed to get power regulator\n"
    else
      ret <- of_drm_get_panel_orientation ;;
      if negb (ret =? 0) then
        dev_err_probe ret "failed to get orientation\n"
      else
        ret <- drm_panel_of_backlight ;;
        if negb (ret =? 0) then
          dev_err_probe ret "failed to get backlight\n"
        else
          update_cell (with_prepare_prev_first true) ;;
          drm_panel_add ili ;;
          ret <- mipi_dsi_attach dev ;;
          if ret <? 0 then
            dev_err_probe ret "failed to attach to DSI host\n" ;;
            drm_panel_remove ili ;;
            mret ret
          else mret 0.

(** [probe] of the device [dev] whose compatible string is [compatible].
    [None]: the driver dereferences [ili->desc] unchecked, so with no match
    data it reads through a null pointer. *)
Definition ili9488_dsi_probe (MS : multi_sem) (compatible : string)
    (dev : mipi_dsi_device) (w : probe_state) : option (Z * probe_state) :=
  let ili := panel_alloc_ptr A in
  let (_, w1) := plog_emit (PanelAlloc ili) w in
  if IS_ERR K ili then Some (PTR_ERR K ili, w1)
  else
    match device_get_match_data (ili9488_of_match MS) compatible with
    | None => None
    | Some d => Some (ili9488_dsi_probe_matched dev d w1)
    end.

(** [remove] of the device [dev].  [None]: with no driver data the driver
    takes the address of a member of a null [ili]. *)
Definition ili9488_dsi_remove (dev : mipi_dsi_device) (w : probe_state)
  : option (unit * probe_state) :=
  match drvdata w with
  | None => None
  | Some ili =>
      Some ((ret <- mipi_dsi_detach dev ;;
             (if ret <? 0 then
                plog_emit (DevErrDetach dev
                             "failed to detach from DSI host: %d\n" ret)
              else mret tt) ;;
             drm_panel_remove ili) w)
  end.

End Attach.

(** ** Reading an attach log *)

Definition is_panel_add (e : probe_event) : bool :=
  match e with PanelAdd _ => true | _ => false end.

Definition is_panel_remove (e : probe_event) : bool :=
  match e with PanelRemove _ => true | _ => false end.

Definition is_dsi_attach (e : probe_event) : bool :=
  match e with DsiAttach _ _ => true | _ => false end.

Definition pcount (p : probe_event -> bool) (l : list probe_event) : Z :=
  Z.of_nat (List.length (filter p l)).

(** Panels added and not removed again. *)
Definition registered (l : list probe_event) : Z :=
  pcount is_panel_add l - pcount is_panel_remove l.

(** Every step of [probe] after the allocation goes through. *)
Definition attach_steps_ok (K : err_api) (A : attach_env) : bool :=
  negb (IS_ERR K (gpiod_get_ptr A)) &&
  negb (IS_ERR K (regulator_get_ptr A)) &&
  (orientation_ret A =? 0) &&
  (backlight_ret A =? 0) &&
  negb (attach_ret A <? 0).

(** ** Concrete attach environments *)

(** Handles from 1000 up stand for error pointers, [1000 + k] for the
    error [-(k + 1)]; [dev_err_probe] returns the error it is given. *)
Definition sample_err_api : err_api := {|
  IS_ERR := fun p => Nat.leb 1000 p;
  PTR_ERR := fun p => 999 - Z.of_nat p;
  dev_err_probe_ret := fun err => err
|}.

Definition attach_ok : attach_env := {|
  panel_alloc_ptr := 40%nat;
  gpiod_get_ptr := 8%nat;
  regulator_get_ptr := 9%nat;
  orientation_ret := 0;
  orientation_out := Some 1;
  backlight_ret := 0;
  attach_ret := 0;
  detach_ret := 0
|}.

(** The regulator is not there yet: [ERR_PTR(-517)]. *)
Definition attach_no_regulator : attach_env := {|
  panel_alloc_ptr := 40%nat;
  gpiod_get_ptr := 8%nat;
  regulator_get_ptr := 1516%nat;
  orientation_ret := 0;
  orientation_out := Some 1;
  backlight_ret := 0;
  attach_ret := 0;
  detach_ret := 0
|}.

(** The DSI host refuses the device with [-ENODEV]; a later detach fails
    too. *)
Definition attach_refused : attach_env := {|
  panel_alloc_ptr := 40%nat;
  gpiod_get_ptr := 8%nat;
  regulator_get_ptr := 9%nat;
  orientation_ret := 0;
  orientation_out := Some 1;
  backlight_ret := 0;
  attach_ret := -19;
  detach_ret := -19
|}.

Definition probe_state0 : probe_state := {|
  cell := None;
  drvdata := None;
  dsi_mode_flags := [];
  dsi_format := None;
  dsi_lanes := 0;
  plog := []
|}.

(** * Properties *)

(** ** State passing and the instance *)

Ltac st_unfold :=
  unfold bind, mret, read, lift, emit, gpiod_set_value_cansleep,
    usleep_range, dev_err, regulator_enable, regulator_disable in *.

Lemma lift_inst {A : Type} (m : H A) (s : driver_state) :
  inst (snd (lift m s)) = inst s.
Proof.
  unfold lift. destruct (m (hw s)). reflexivity.
Qed.

Lemma bind_inst {A B : Type} (m : D A) (k : A -> D B) (s : driver_state) :
  (forall s0, inst (snd (m s0)) = inst s0) ->
  (forall a s0, inst (snd (k a s0)) = inst s0) ->
  inst (snd (bind m k s)) = inst s.
Proof.
  intros Hm Hk. unfold bind. specialize (Hm s).
  destruct (m s) as [a s1]. simpl in Hm. rewrite Hk. exact Hm.
Qed.

Lemma mret_inst {A : Type} (a : A) (s : driver_state) :
  inst (snd (mret a s)) = inst s.
Proof. reflexivity. Qed.

Lemma read_inst {A : Type} (f : ili9488 -> A) (s : driver_state) :
  inst (snd (read f s)) = inst s.
Proof. reflexivity. Qed.

(** Solves a frame goal by following the binds of the function. *)
Ltac frame :=
  repeat first
    [ apply mret_inst
    | apply read_inst
    | apply lift_inst
    | apply bind_inst; intros
    | match goal with
      | |- context [if ?b then _ else _] => destruct b
      | |- context [match ?o with Some _ => _ | None => _ end] => destruct o
      end ].

Lemma power_on_inst (E : hw_env) (s : driver_state) :
  inst (snd (ili9488_power_on E s)) = inst s.
Proof. unfold ili9488_power_on. frame. Qed.

Lemma power_off_inst (E : hw_env) (s : driver_state) :
  inst (snd (ili9488_power_off E s)) = inst s.
Proof. unfold ili9488_power_off. frame. Qed.

Lemma activate_inst (MS : multi_sem) (s : driver_state) :
  inst (snd (ili9488_activate MS s)) = inst s.
Proof. unfold ili9488_activate. frame. Qed.

Lemma deactivate_inst (MS : multi_sem) (s : driver_state) :
  inst (snd (ili9488_deactivate MS s)) = inst s.
Proof. unfold ili9488_deactivate. frame. Qed.

Lemma prepare_inst (E : hw_env) (MS : multi_sem) (s : driver_state) :
  inst (snd (ili9488_prepare E MS s)) = inst s.
Proof.
  unfold ili9488_prepare.
  apply bind_inst; intros; [apply power_on_inst|].
  destruct (negb (a =? 0)); [apply mret_inst|].
  apply bind_inst; intros; [apply activate_inst|].
  destruct (negb (a0 =? 0)); [|apply mret_inst].
  apply bind_inst; intros; [apply power_off_inst | apply mret_inst].
Qed.

Lemma unprepare_inst (E : hw_env) (MS : multi_sem) (s : driver_state) :
  inst (snd (ili9488_unprepare E MS s)) = inst s.
Proof.
  unfold ili9488_unprepare.
  apply bind_inst; intros; [apply read_inst|].
  apply bind_inst; intros; [apply deactivate_inst|].
  apply bind_inst; intros; [apply power_off_inst|].
  frame.
Qed.

Lemma run_calls_inst (E : hw_env) (MS : multi_sem) (cs : list panel_call) :
  forall s, inst (run_calls E MS cs s) = inst s.
Proof.
  induction cs as [|c cs IH]; intros s; simpl; [reflexivity|].
  rewrite IH. destruct c; simpl; [apply prepare_inst | apply unprepare_inst].
Qed.

(** ** Power sequencing *)

Lemma app_cons_assoc {A : Type} (l : list A) (a : A) (l' : list A) :
  (l ++ [a]) ++ l' = l ++ a :: l'.
Proof. rewrite <- app_assoc. reflexivity. Qed.

Lemma power_on_enabled (E : hw_env) (s : driver_state) :
  let v := regulator_enable_ret E (hw s) (power (inst s)) in
  0 <= v ->
  ili9488_power_on E s =
    (0, {| inst := inst s;
           hw := hw s ++
                 [RegulatorEnable (power (inst s)) v;
                  GpiodSetValue (reset (inst s)) 0;
                  UsleepRange 1000 5000;
                  GpiodSetValue (reset (inst s)) 1;
                  UsleepRange 1000 5000;
                  GpiodSetValue (reset (inst s)) 0;
                  UsleepRange 5000 10000] |}).
Proof.
  intros v Hv. unfold ili9488_power_on. st_unfold. simpl.
  fold v. destruct (v <? 0) eqn:Hneg; [apply Z.ltb_lt in Hneg; lia|].
  simpl. repeat rewrite app_cons_assoc. reflexivity.
Qed.

Lemma power_on_refused (E : hw_env) (s : driver_state) :
  let v := regulator_enable_ret E (hw s) (power (inst s)) in
  v < 0 ->
  ili9488_power_on E s =
    (v, {| inst := inst s;
           hw := hw s ++
                 [RegulatorEnable (power (inst s)) v;
                  DevErr (dsi (inst s)) "regulator enable failed: %d\n" v] |}).
Proof.
  intros v Hv. unfold ili9488_power_on. st_unfold. simpl.
  fold v. apply Z.ltb_lt in Hv. rewrite Hv.
  simpl. repeat rewrite app_cons_assoc. reflexivity.
Qed.

(** [power_off] has one path: reset is asserted, the supply is asked to
    switch off, a failure is logged, the regulator's answer is returned. *)
Lemma power_off_run (E : hw_env) (s : driver_state) :
  let v := regulator_disable_ret E
             (hw s ++ [GpiodSetValue (reset (inst s)) 1]) (power (inst s)) in
  ili9488_power_off E s =
    (v, {| inst := inst s;
           hw := hw s ++
                 [GpiodSetValue (reset (inst s)) 1;
                  RegulatorDisable (power (inst s)) v] ++
                 (if v =? 0 then []
                  else [DevErr (dsi (inst s))
                          "regulator disable failed: %d\n" v]) |}).
Proof.
  intros v. unfold ili9488_power_off. st_unfold. simpl. fold v.
  destruct (v =? 0); simpl; repeat rewrite app_cons_assoc;
    try rewrite app_nil_r; reflexivity.
Qed.

(** The result of [power_on] is zero exactly when the supply came up. *)
Lemma power_on_result (E : hw_env) (s : driver_state) :
  let v := regulator_enable_ret E (hw s) (power (inst s)) in
  fst (ili9488_power_on E s) = (if v <? 0 then v else 0).
Proof.
  intros v. destruct (v <? 0) eqn:Hv.
  - apply Z.ltb_lt in Hv. rewrite (power_on_refused E s Hv). reflexivity.
  - apply Z.ltb_ge in Hv. rewrite (power_on_enabled E s Hv). reflexivity.
Qed.

(** C4: whenever the supply-enable step of [power_on] succeeds, the reset
    line is driven deassert, assert, deassert, each edge followed by its
    delay window of 1-5 ms, 1-5 ms and 5-10 ms ([usleep_range] counts in
    microseconds), nothing else happens, and [power_on] returns success. *)
Theorem power_on_reset_pulse (E : hw_env) (s : driver_state) :
  let v := regulator_enable_ret E (hw s) (power (inst s)) in
  let r := reset (inst s) in
  0 <= v ->
  ili9488_power_on E s =
    (0, {| inst := inst s;
           hw := hw s ++
                 [RegulatorEnable (power (inst s)) v;
                  GpiodSetValue r 0; UsleepRange (1 * 1000) (5 * 1000);
                  GpiodSetValue r 1; UsleepRange (1 * 1000) (5 * 1000);
                  GpiodSetValue r 0; UsleepRange (5 * 1000) (10 * 1000)] |}).
Proof.
  intros v r Hv. exact (power_on_enabled E s Hv).
Qed.

Lemma power_on_reset_pulse_witness :
  ili9488_power_on env_ok (sample_state (multi_spec transport_ok)) =
    (0, {| inst := sample_ili (multi_spec transport_ok);
           hw := [RegulatorEnable 9%nat 0;
                  GpiodSetValue 8%nat 0; UsleepRange 1000 5000;
                  GpiodSetValue 8%nat 1; UsleepRange 1000 5000;
                  GpiodSetValue 8%nat 0; UsleepRange 5000 10000] |}).
Proof.
  apply (power_on_reset_pulse env_ok (sample_state (multi_spec transport_ok))).
  simpl. lia.
Defined.

(** ** prepare *)

(** C3: when the supply-enable step fails, [prepare] returns that error at
    once; all that happened is the enable call and its log line, so the
    reset line was never set and no multi helper was called. *)
Theorem prepare_supply_enable_failure
    (E : hw_env) (MS : multi_sem) (s : driver_state) :
  let v := regulator_enable_ret E (hw s) (power (inst s)) in
  let evs := [RegulatorEnable (power (inst s)) v;
              DevErr (dsi (inst s)) "regulator enable failed: %d\n" v] in
  v < 0 ->
  ili9488_prepare E MS s = (v, {| inst := inst s; hw := hw s ++ evs |}) /\
  count is_gpiod_set_value evs = 0 /\
  count is_dsi_event evs = 0.
Proof.
  intros v evs Hv. split; [|split; reflexivity].
  unfold ili9488_prepare, bind.
  rewrite (power_on_refused E s Hv). fold v.
  destruct (v =? 0) eqn:Hz; [apply Z.eqb_eq in Hz; lia|].
  reflexivity.
Qed.

Lemma prepare_supply_enable_failure_witness :
  ili9488_prepare env_enable_fails (multi_spec transport_ok)
      (sample_state (multi_spec transport_ok)) =
    (-22, {| inst := sample_ili (multi_spec transport_ok);
             hw := [RegulatorEnable 9%nat (-22);
                    DevErr 7%nat "regulator enable failed: %d\n" (-22)] |}).
Proof.
  apply (prepare_supply_enable_failure env_enable_fails
           (multi_spec transport_ok) (sample_state (multi_spec transport_ok))).
  simpl. lia.
Defined.

(** C1: when [power_on] succeeds and [activate] returns an error,
    [prepare] runs [power_off] on the state [activate] left and returns
    the error of [activate]: the answer of [power_off] (here [v], whatever
    it is) is only logged.  The instance stays Unprepared. *)
Theorem prepare_activate_failure
    (E : hw_env) (MS : multi_sem) (s s1 s2 : driver_state) (err : Z) :
  ili9488_power_on E s = (0, s1) ->
  ili9488_activate MS s1 = (err, s2) ->
  err <> 0 ->
  let v := regulator_disable_ret E
             (hw s2 ++ [GpiodSetValue (reset (inst s)) 1]) (power (inst s)) in
  ili9488_prepare E MS s = (err, snd (ili9488_power_off E s2)) /\
  hw (snd (ili9488_prepare E MS s)) =
    hw s2 ++
    [GpiodSetValue (reset (inst s)) 1; RegulatorDisable (power (inst s)) v] ++
    (if v =? 0 then []
     else [DevErr (dsi (inst s)) "regulator disable failed: %d\n" v]) /\
  life (snd (host_prepare E MS {| life := Unprepared; drv := s |})) =
    Unprepared.
Proof.
  intros Hon Hact Herr v.
  assert (Hprep : ili9488_prepare E MS s =
                  (err, snd (ili9488_power_off E s2))).
  { unfold ili9488_prepare, bind. rewrite Hon. simpl. rewrite Hact.
    destruct (err =? 0) eqn:Hz; [apply Z.eqb_eq in Hz; contradiction|].
    simpl. destruct (ili9488_power_off E s2). reflexivity. }
  assert (Hinst : inst s2 = inst s).
  { pose proof (activate_inst MS s1) as H2. rewrite Hact in H2.
    pose proof (power_on_inst E s) as H1. rewrite Hon in H1.
    simpl in *. congruence. }
  split; [exact Hprep|]. split.
  - rewrite Hprep. simpl. rewrite power_off_run. simpl.
    rewrite Hinst. reflexivity.
  - unfold host_prepare. simpl. rewrite Hprep.
    destruct (err =? 0) eqn:Hz; [apply Z.eqb_eq in Hz; contradiction|].
    reflexivity.
Qed.

Lemma prepare_activate_failure_witness :
  let MS := multi_spec transport_display_on_fails in
  let s := sample_state MS in
  let s1 := snd (ili9488_power_on env_disable_fails s) in
  let s2 := snd (ili9488_activate MS s1) in
  ili9488_prepare env_disable_fails MS s =
    (-5, snd (ili9488_power_off env_disable_fails s2)) /\
  hw (snd (ili9488_prepare env_disable_fails MS s)) =
    hw s2 ++
    [GpiodSetValue 8%nat 1; RegulatorDisable 9%nat (-16);
     DevErr 7%nat "regulator disable failed: %d\n" (-16)] /\
  life (snd (host_prepare env_disable_fails MS
               {| life := Unprepared; drv := s |})) = Unprepared.
Proof.
  intros MS s s1 s2.
  apply (prepare_activate_failure env_disable_fails MS s s1 s2 (-5)).
  - vm_compute. reflexivity.
  - vm_compute. reflexivity.
  - lia.
Defined.

(** ** unprepare *)

(** C2: whatever the deactivate batch did and returned, [unprepare] then
    runs [power_off] once and returns its result [v], the answer of the
    supply disable: zero when it succeeded, the error when it did not.  The
    result of [deactivate] appears nowhere in the outcome, and the instance
    is Unprepared afterwards either way. *)
Theorem unprepare_powers_off_once
    (E : hw_env) (MS : multi_sem) (s : driver_state) :
  let s1 := snd (ili9488_deactivate MS s) in
  let v := regulator_disable_ret E
             (hw s1 ++ [GpiodSetValue (reset (inst s)) 1]) (power (inst s)) in
  let evs :=
    [GpiodSetValue (reset (inst s)) 1; RegulatorDisable (power (inst s)) v] ++
    (if v =? 0 then []
     else [DevErr (dsi (inst s)) "regulator disable failed: %d\n" v]) ++
    (if v <? 0 then [DevErr (dsi (inst s)) "power off failed: %d\n" v]
     else []) in
  ili9488_unprepare E MS s = (v, {| inst := inst s; hw := hw s1 ++ evs |}) /\
  fst (ili9488_power_off E s1) = v /\
  count is_power_off evs = 1 /\
  life (snd (host_unprepare E MS {| life := Prepared; drv := s |})) =
    Unprepared.
Proof.
  intros s1 v evs.
  assert (Hinst : inst s1 = inst s) by apply deactivate_inst.
  assert (Hoff : ili9488_power_off E s1 =
    (v, {| inst := inst s;
           hw := hw s1 ++
                 [GpiodSetValue (reset (inst s)) 1;
                  RegulatorDisable (power (inst s)) v] ++
                 (if v =? 0 then []
                  else [DevErr (dsi (inst s))
                          "regulator disable failed: %d\n" v]) |})).
  { rewrite power_off_run. rewrite Hinst. reflexivity. }
  split; [|split; [|split]].
  - unfold ili9488_unprepare, bind, read. subst s1.
    destruct (ili9488_deactivate MS s) as [r s1'] eqn:Hde. simpl in *.
    rewrite Hoff. unfold evs.
    destruct (v <? 0); unfold lift, dev_err, emit, mret; simpl.
    + destruct (v =? 0); simpl; repeat rewrite <- app_assoc; reflexivity.
    + destruct (v =? 0); simpl; repeat rewrite <- app_assoc; reflexivity.
  - rewrite Hoff. reflexivity.
  - unfold evs. destruct (v =? 0), (v <? 0); reflexivity.
  - unfold host_unprepare. simpl.
    destruct (ili9488_unprepare E MS s). reflexivity.
Qed.

(** ** Command batches, for any behaviour of the multi helpers *)

Lemma filter_map_bus (d : mipi_dsi_device) (bus : list bus_event) :
  filter is_multi_call (map (Bus d) bus) = [].
Proof. induction bus; simpl; auto. Qed.

Lemma forallb_map_bus (d : mipi_dsi_device) (bus : list bus_event) :
  forallb is_dsi_event (map (Bus d) bus) = true.
Proof. induction bus; simpl; auto. Qed.

(** One helper call: the call event, then bus events only; the context
    keeps its device. *)
Lemma multi_exec_events (MS : multi_sem) (op : multi_op)
    (ctx : mipi_dsi_multi_context) (tr : trace) :
  exists evs,
    snd (multi_exec MS op ctx tr) = tr ++ evs /\
    filter is_multi_call evs = [MultiCall (ctx_dsi ctx) op] /\
    forallb is_dsi_event evs = true /\
    ctx_dsi (fst (multi_exec MS op ctx tr)) = ctx_dsi ctx.
Proof.
  unfold multi_exec.
  destruct (MS op ctx (tr ++ [MultiCall (ctx_dsi ctx) op])) as [err bus].
  exists (MultiCall (ctx_dsi ctx) op :: map (Bus (ctx_dsi ctx)) bus).
  simpl. rewrite filter_map_bus, forallb_map_bus, app_cons_assoc. auto.
Qed.

Lemma run_batch_events (MS : multi_sem) (ops : list multi_op) :
  forall ctx tr, exists evs,
    snd (run_batch MS ops ctx tr) = tr ++ evs /\
    filter is_multi_call evs = map (MultiCall (ctx_dsi ctx)) ops /\
    forallb is_dsi_event evs = true /\
    ctx_dsi (fst (run_batch MS ops ctx tr)) = ctx_dsi ctx.
Proof.
  induction ops as [|op ops IH]; intros ctx tr; simpl.
  - exists []. rewrite app_nil_r. auto.
  - unfold bind.
    destruct (multi_exec_events MS op ctx tr) as (e1 & Htr & Hc & Hd & Hdsi).
    destruct (multi_exec MS op ctx tr) as [ctx1 tr1]. simpl in *. subst tr1.
    destruct (IH ctx1 (tr ++ e1)) as (e2 & Htr2 & Hc2 & Hd2 & Hdsi2).
    exists (e1 ++ e2). rewrite Htr2, app_assoc, filter_app, forallb_app.
    rewrite Hc, Hc2, Hd, Hd2, Hdsi2, Hdsi. auto.
Qed.

Lemma run_batch_app (MS : multi_sem) (ops1 ops2 : list multi_op) :
  forall ctx tr,
    run_batch MS (ops1 ++ ops2) ctx tr =
    (let (ctx1, tr1) := run_batch MS ops1 ctx tr in
     run_batch MS ops2 ctx1 tr1).
Proof.
  induction ops1 as [|op ops1 IH]; intros ctx tr; simpl; [reflexivity|].
  unfold bind. destruct (multi_exec MS op ctx tr). apply IH.
Qed.

(** The init callback of the registered model is the batch of its
    fourteen writes. *)
Lemma e35gh_i_mw800cb_init_batch (MS : multi_sem)
    (ctx : mipi_dsi_multi_context) (tr : trace) :
  e35gh_i_mw800cb_init MS ctx tr =
  run_batch MS e35gh_i_mw800cb_init_ops ctx tr.
Proof.
  unfold e35gh_i_mw800cb_init, e35gh_i_mw800cb_init_ops,
    mipi_dsi_dcs_write_seq_multi.
  cbn [map fst snd run_batch]. unfold bind, mret.
  repeat match goal with
    | |- context [multi_exec MS ?op ?c ?t] =>
        destruct (multi_exec MS op c t)
    end.
  reflexivity.
Qed.

Lemma e35gh_i_mw800cb_init_dsi_only (MS : multi_sem) :
  dsi_only (e35gh_i_mw800cb_init MS).
Proof.
  intros ctx tr. rewrite e35gh_i_mw800cb_init_batch.
  destruct (run_batch_events MS e35gh_i_mw800cb_init_ops ctx tr)
    as (evs & Htr & _ & Hd & _).
  exists evs. auto.
Qed.

(** What [activate] starts from once the optional init callback ran on the
    fresh context. *)
Lemma activate_batch (MS : multi_sem) (s : driver_state) :
  let ctx0 := {| ctx_dsi := dsi (inst s); accum_err := 0 |} in
  let start := match init_sequence (desc (inst s)) with
               | Some f => f ctx0 (hw s)
               | None => (ctx0, hw s)
               end in
  ili9488_activate MS s =
    (let (ctx, tr) := run_batch MS activate_tail_ops (fst start) (snd start) in
     (accum_err ctx, {| inst := inst s; hw := tr |})).
Proof.
  intros ctx0 start. subst start ctx0.
  unfold ili9488_activate, activate_tail_ops,
    mipi_dsi_dcs_exit_sleep_mode_multi, mipi_dsi_msleep,
    mipi_dsi_dcs_set_display_on_multi.
  cbn [run_batch]. unfold bind, read, lift, mret. cbn [inst hw].
  destruct (init_sequence (desc (inst s))) as [f|]; cbn [inst hw fst snd].
  - destruct (f _ (hw s)) as [c0 t0]. cbn [inst hw fst snd].
    repeat match goal with
      | |- context [multi_exec MS ?op ?c ?t] =>
          destruct (multi_exec MS op c t); cbn [inst hw fst snd]
      end.
    reflexivity.
  - repeat match goal with
      | |- context [multi_exec MS ?op ?c ?t] =>
          destruct (multi_exec MS op c t); cbn [inst hw fst snd]
      end.
    reflexivity.
Qed.

Lemma deactivate_batch (MS : multi_sem) (s : driver_state) :
  ili9488_deactivate MS s =
    (let (ctx, tr) :=
       run_batch MS deactivate_ops
         {| ctx_dsi := dsi (inst s); accum_err := 0 |} (hw s) in
     (accum_err ctx, {| inst := inst s; hw := tr |})).
Proof.
  unfold ili9488_deactivate, deactivate_ops,
    mipi_dsi_dcs_set_display_off_multi,
    mipi_dsi_dcs_enter_sleep_mode_multi, mipi_dsi_msleep.
  cbn [run_batch]. unfold bind, read, lift, mret. cbn [inst hw].
  repeat match goal with
    | |- context [multi_exec MS ?op ?c ?t] =>
        destruct (multi_exec MS op c t); cbn [inst hw fst snd]
    end.
  reflexivity.
Qed.

(** C5: [activate] works on one context, created with the instance's
    device and no error.  The init callback of the descriptor runs first
    when there is one (nothing runs when there is none); from the context
    and trace it leaves, the helpers called are exit-sleep-mode, the sleep
    of 120 ms and set-display-on, in this order and nothing else, and the
    value returned is the error accumulated in that context.  For the
    registered model the callback is its fourteen writes in source order. *)
Theorem activate_issues_in_order (MS : multi_sem) (s : driver_state) :
  let d := dsi (inst s) in
  let ctx0 := {| ctx_dsi := d; accum_err := 0 |} in
  let start := match init_sequence (desc (inst s)) with
               | Some f => f ctx0 (hw s)
               | None => (ctx0, hw s)
               end in
  exists ctx evs,
    run_batch MS activate_tail_ops (fst start) (snd start) =
      (ctx, snd start ++ evs) /\
    ili9488_activate MS s =
      (accum_err ctx, {| inst := inst s; hw := snd start ++ evs |}) /\
    filter is_multi_call evs =
      [MultiCall (ctx_dsi (fst start)) (MultiWrite DcsExitSleepMode);
       MultiCall (ctx_dsi (fst start)) (MultiMsleep 120);
       MultiCall (ctx_dsi (fst start)) (MultiWrite DcsSetDisplayOn)] /\
    forallb is_dsi_event evs = true /\
    (init_sequence (desc (inst s)) = Some (e35gh_i_mw800cb_init MS) ->
     exists evs0,
       start = run_batch MS e35gh_i_mw800cb_init_ops ctx0 (hw s) /\
       snd start = hw s ++ evs0 /\
       filter is_multi_call evs0 =
         map (MultiCall d) e35gh_i_mw800cb_init_ops /\
       ctx_dsi (fst start) = d).
Proof.
  intros d ctx0 start.
  pose proof (activate_batch MS s) as Hact. cbv zeta in Hact.
  fold d ctx0 start in Hact.
  destruct (run_batch_events MS activate_tail_ops (fst start) (snd start))
    as (evs & Htr & Hcalls & Hdsi & _).
  destruct (run_batch MS activate_tail_ops (fst start) (snd start))
    as [ctx tr] eqn:Hrun.
  simpl in Htr. subst tr.
  exists ctx, evs. repeat split; auto.
  intros Hinit. subst start. rewrite Hinit.
  rewrite e35gh_i_mw800cb_init_batch.
  destruct (run_batch_events MS e35gh_i_mw800cb_init_ops ctx0 (hw s))
    as (evs0 & Htr0 & Hcalls0 & _ & Hd0).
  exists evs0. auto.
Qed.

Lemma activate_issues_in_order_witness :
  let MS := multi_spec transport_ok in
  let s := sample_state MS in
  let d := dsi (inst s) in
  let ctx0 := {| ctx_dsi := d; accum_err := 0 |} in
  let start := match init_sequence (desc (inst s)) with
               | Some f => f ctx0 (hw s)
               | None => (ctx0, hw s)
               end in
  exists evs0,
    start = run_batch MS e35gh_i_mw800cb_init_ops ctx0 (hw s) /\
    snd start = hw s ++ evs0 /\
    filter is_multi_call evs0 = map (MultiCall d) e35gh_i_mw800cb_init_ops /\
    ctx_dsi (fst start) = d.
Proof.
  intros MS s d ctx0 start.
  destruct (activate_issues_in_order MS s)
    as (ctx & evs & _ & _ & _ & _ & Hreg).
  exact (Hreg eq_refl).
Defined.

(** ** Command batches as the spec describes them *)

Lemma run_batch_spec (T : transport) (d : mipi_dsi_device)
    (ops : list multi_op) :
  forall (a : Z) (tr : trace),
    run_batch (multi_spec T) ops {| ctx_dsi := d; accum_err := a |} tr =
      ({| ctx_dsi := d;
          accum_err := if a =? 0 then first_failure T d ops tr else a |},
       tr ++ flat_map (spec_events d) ops).
Proof.
  induction ops as [|op ops IH]; intros a tr.
  - simpl. unfold mret. rewrite app_nil_r. destruct (a =? 0) eqn:Ha;
      [apply Z.eqb_eq in Ha; subst|]; reflexivity.
  - destruct op as [c|ms].
    + cbn [run_batch first_failure flat_map]. unfold bind, multi_exec.
      cbn [multi_spec ctx_dsi accum_err map]. rewrite IH.
      cbn [spec_events]. rewrite <- !app_assoc. cbn [app].
      f_equal. f_equal.
      destruct (a =? 0) eqn:Ha.
      * destruct (T (tr ++ [MultiCall d (MultiWrite c)]) c <? 0) eqn:Hr.
        -- apply Z.ltb_lt in Hr.
           destruct (T (tr ++ [MultiCall d (MultiWrite c)]) c =? 0) eqn:Hz;
             [apply Z.eqb_eq in Hz; lia | reflexivity].
        -- reflexivity.
      * rewrite Ha. reflexivity.
    + cbn [run_batch first_failure flat_map]. unfold bind, multi_exec.
      cbn [multi_spec ctx_dsi accum_err map]. rewrite IH.
      cbn [spec_events]. rewrite <- !app_assoc. cbn [app].
      reflexivity.
Qed.

Lemma first_failure_app (T : transport) (d : mipi_dsi_device)
    (pre rest : list multi_op) :
  forall tr,
    first_failure T d pre tr = 0 ->
    first_failure T d (pre ++ rest) tr =
    first_failure T d rest (tr ++ flat_map (spec_events d) pre).
Proof.
  induction pre as [|op pre IH]; intros tr Hpre.
  - simpl. rewrite app_nil_r. reflexivity.
  - destruct op as [c|ms]; cbn [app first_failure flat_map] in *.
    + destruct (T (tr ++ [MultiCall d (MultiWrite c)]) c <? 0) eqn:Hr.
      * apply Z.ltb_lt in Hr. lia.
      * rewrite IH by exact Hpre. rewrite app_assoc. reflexivity.
    + rewrite IH by exact Hpre. rewrite app_assoc. reflexivity.
Qed.

(** C6: in a batch run as the spec describes it, let the write [c] be the
    first one the transport refuses, with error [e].  Then every request of
    the batch, those after [c] included, is called and reaches the bus in
    order, and the batch ends with [e] whatever the transport answers to
    the later writes.  The deactivate batch and the activate batch (with
    the registered model's callback, or with none) are such batches. *)
Theorem batch_keeps_first_failure
    (T : transport) (d : mipi_dsi_device) (pre post : list multi_op)
    (c : dcs_command) (tr : trace) (e : Z) :
  first_failure T d pre tr = 0 ->
  T (tr ++ flat_map (spec_events d) pre ++ [MultiCall d (MultiWrite c)]) c
    = e ->
  e < 0 ->
  let ops := pre ++ MultiWrite c :: post in
  let MS := multi_spec T in
  run_batch MS ops {| ctx_dsi := d; accum_err := 0 |} tr =
    ({| ctx_dsi := d; accum_err := e |},
     tr ++ flat_map (spec_events d) ops) /\
  (forall s, dsi (inst s) = d -> hw s = tr ->
     deactivate_ops = ops ->
     ili9488_deactivate MS s =
       (e, {| inst := inst s;
              hw := tr ++ flat_map (spec_events d) ops |})) /\
  (forall s, dsi (inst s) = d -> hw s = tr ->
     init_sequence (desc (inst s)) = None ->
     activate_tail_ops = ops ->
     ili9488_activate MS s =
       (e, {| inst := inst s;
              hw := tr ++ flat_map (spec_events d) ops |})) /\
  (forall s, dsi (inst s) = d -> hw s = tr ->
     init_sequence (desc (inst s)) = Some (e35gh_i_mw800cb_init MS) ->
     e35gh_i_mw800cb_init_ops ++ activate_tail_ops = ops ->
     ili9488_activate MS s =
       (e, {| inst := inst s;
              hw := tr ++ flat_map (spec_events d) ops |})).
Proof.
  intros Hpre HT He ops MS.
  assert (Hff : first_failure T d ops tr = e).
  { unfold ops. rewrite first_failure_app by exact Hpre.
    cbn [first_failure]. rewrite <- app_assoc, HT.
    apply Z.ltb_lt in He. rewrite He. reflexivity. }
  assert (Hrun : run_batch MS ops {| ctx_dsi := d; accum_err := 0 |} tr =
                 ({| ctx_dsi := d; accum_err := e |},
                  tr ++ flat_map (spec_events d) ops)).
  { unfold MS. rewrite run_batch_spec. simpl. rewrite Hff. reflexivity. }
  split; [exact Hrun|]. split; [|split].
  - intros s Hd Htr Hops. rewrite deactivate_batch.
    rewrite Hd, Htr, Hops. fold MS. rewrite Hrun. reflexivity.
  - intros s Hd Htr Hinit Hops.
    pose proof (activate_batch MS s) as Hact. cbv zeta in Hact.
    rewrite Hinit in Hact. cbn [fst snd] in Hact.
    rewrite Hd, Htr, Hops, Hrun in Hact. exact Hact.
  - intros s Hd Htr Hinit Hops.
    pose proof (activate_batch MS s) as Hact. cbv zeta in Hact.
    rewrite Hinit, e35gh_i_mw800cb_init_batch, Hd, Htr in Hact.
    rewrite <- Hops, run_batch_app in Hrun.
    destruct (run_batch MS e35gh_i_mw800cb_init_ops
                {| ctx_dsi := d; accum_err := 0 |} tr) as [ctx1 tr1].
    cbn [fst snd] in Hact. rewrite Hrun in Hact. rewrite Hops in Hact.
    exact Hact.
Qed.

(** The display-off write is refused and so is the enter-sleep write after
    it: both are issued, the sleep happens, the first error is reported. *)
Lemma batch_keeps_first_failure_witness :
  let MS := multi_spec transport_teardown_fails in
  let s := sample_state MS in
  ili9488_deactivate MS s =
    (-5, {| inst := inst s;
            hw := [MultiCall 7%nat (MultiWrite DcsSetDisplayOff);
                   Bus 7%nat (BusWrite DcsSetDisplayOff);
                   MultiCall 7%nat (MultiWrite DcsEnterSleepMode);
                   Bus 7%nat (BusWrite DcsEnterSleepMode);
                   MultiCall 7%nat (MultiMsleep 120);
                   Bus 7%nat (BusSleep 120)] |}).
Proof.
  intros MS s.
  assert (H0 : first_failure transport_teardown_fails 7%nat [] [] = 0)
    by reflexivity.
  assert (H1 : transport_teardown_fails
                 ([] ++ flat_map (spec_events 7%nat) [] ++
                  [MultiCall 7%nat (MultiWrite DcsSetDisplayOff)])
                 DcsSetDisplayOff = -5) by reflexivity.
  assert (H2 : -5 < 0) by lia.
  destruct (batch_keeps_first_failure transport_teardown_fails 7%nat []
              [MultiWrite DcsEnterSleepMode; MultiMsleep 120]
              DcsSetDisplayOff [] (-5) H0 H1 H2) as (_ & Hde & _ & _).
  apply (Hde s); reflexivity.
Defined.

(** ** Supply accounting *)

Lemma count_app (p : event -> bool) (a b : trace) :
  count p (a ++ b) = count p a + count p b.
Proof.
  unfold count. rewrite filter_app, length_app. lia.
Qed.

Lemma count_dsi_events (evs : trace) :
  forallb is_dsi_event evs = true ->
  count is_power_on evs = 0 /\ count is_power_off evs = 0.
Proof.
  unfold count. induction evs as [|e evs IH]; simpl; [auto|].
  intros H. apply andb_prop in H. destruct H as [He Hevs].
  destruct e; simpl in *; try discriminate; auto.
Qed.

Lemma activate_events (MS : multi_sem) (s : driver_state) :
  desc_dsi_only (desc (inst s)) ->
  exists evs,
    hw (snd (ili9488_activate MS s)) = hw s ++ evs /\
    forallb is_dsi_event evs = true.
Proof.
  intros Hdesc. rewrite activate_batch. unfold desc_dsi_only in Hdesc.
  destruct (init_sequence (desc (inst s))) as [f|].
  - destruct (Hdesc {| ctx_dsi := dsi (inst s); accum_err := 0 |} (hw s))
      as (e0 & Htr0 & Hd0).
    destruct (f _ (hw s)) as [c0 t0]. cbn [fst snd] in *. subst t0.
    destruct (run_batch_events MS activate_tail_ops c0 (hw s ++ e0))
      as (e1 & Htr1 & _ & Hd1 & _).
    destruct (run_batch MS activate_tail_ops c0 (hw s ++ e0)) as [c1 t1].
    cbn [fst snd hw] in *. subst t1. exists (e0 ++ e1).
    rewrite app_assoc, forallb_app, Hd0, Hd1. auto.
  - cbn [fst snd].
    destruct (run_batch_events MS activate_tail_ops
                {| ctx_dsi := dsi (inst s); accum_err := 0 |} (hw s))
      as (e1 & Htr1 & _ & Hd1 & _).
    destruct (run_batch MS activate_tail_ops _ (hw s)) as [c1 t1].
    cbn [fst snd hw] in *. subst t1. exists e1. auto.
Qed.

Lemma deactivate_events (MS : multi_sem) (s : driver_state) :
  exists evs,
    hw (snd (ili9488_deactivate MS s)) = hw s ++ evs /\
    forallb is_dsi_event evs = true.
Proof.
  rewrite deactivate_batch.
  destruct (run_batch_events MS deactivate_ops
              {| ctx_dsi := dsi (inst s); accum_err := 0 |} (hw s))
    as (e1 & Htr1 & _ & Hd1 & _).
  destruct (run_batch MS deactivate_ops _ (hw s)) as [c1 t1].
  cbn [fst snd hw] in *. subst t1. exists e1. auto.
Qed.

(** [power_off] adds one supply disable and no supply enable. *)
Lemma power_off_counts (E : hw_env) (s : driver_state) :
  count is_power_on (hw (snd (ili9488_power_off E s))) =
    count is_power_on (hw s) /\
  count is_power_off (hw (snd (ili9488_power_off E s))) =
    count is_power_off (hw s) + 1.
Proof.
  rewrite power_off_run. simpl. rewrite !count_app.
  destruct (_ =? 0); split; unfold count at 2; simpl; lia.
Qed.

Lemma unprepare_counts (E : hw_env) (MS : multi_sem) (s : driver_state) :
  count is_power_on (hw (snd (ili9488_unprepare E MS s))) =
    count is_power_on (hw s) /\
  count is_power_off (hw (snd (ili9488_unprepare E MS s))) =
    count is_power_off (hw s) + 1.
Proof.
  destruct (deactivate_events MS s) as (e1 & Htr1 & Hd1).
  apply count_dsi_events in Hd1. destruct Hd1 as [Hon1 Hoff1].
  destruct (power_off_counts E (snd (ili9488_deactivate MS s)))
    as [Hon Hoff].
  rewrite Htr1, !count_app, Hon1, Hoff1 in *.
  unfold ili9488_unprepare, bind, read.
  destruct (ili9488_deactivate MS s) as [r s1]. simpl in *.
  destruct (ili9488_power_off E s1) as [v s2]. simpl in *.
  destruct (v <? 0); unfold lift, dev_err, emit, mret; simpl;
    rewrite ?count_app, Hon, Hoff; unfold count; simpl; lia.
Qed.

(** The three ways [prepare] can end, with what each does to the counts
    of supply enables that went through and of power-offs. *)
Lemma prepare_counts (E : hw_env) (MS : multi_sem) (s : driver_state) :
  desc_dsi_only (desc (inst s)) ->
  let r := fst (ili9488_prepare E MS s) in
  let tr' := hw (snd (ili9488_prepare E MS s)) in
  let on0 := count is_power_on (hw s) in
  let off0 := count is_power_off (hw s) in
  (r <> 0 /\ count is_power_on tr' = on0 /\ count is_power_off tr' = off0) \/
  (r <> 0 /\ count is_power_on tr' = on0 + 1 /\
   count is_power_off tr' = off0 + 1) \/
  (r = 0 /\ count is_power_on tr' = on0 + 1 /\ count is_power_off tr' = off0).
Proof.
  intros Hdesc r tr' on0 off0. subst r tr' on0 off0.
  destruct (Z.lt_ge_cases (regulator_enable_ret E (hw s) (power (inst s))) 0)
    as [Hv|Hv].
  - left. unfold ili9488_prepare, bind. rewrite (power_on_refused E s Hv).
    set (v := regulator_enable_ret E (hw s) (power (inst s))) in *.
    destruct (v =? 0) eqn:Hz; [apply Z.eqb_eq in Hz; lia|].
    cbn [negb]. unfold mret. cbn [fst snd hw].
    split; [lia|]. rewrite !count_app. unfold count. cbn [filter is_power_on
      is_power_off]. destruct (0 <=? v) eqn:Hle; [apply Z.leb_le in Hle; lia|].
    simpl. lia.
  - right. unfold ili9488_prepare, bind. rewrite (power_on_enabled E s Hv).
    set (v := regulator_enable_ret E (hw s) (power (inst s))) in *.
    set (s1 := {| inst := inst s; hw := _ |}).
    assert (Hon1 : count is_power_on (hw s1) = count is_power_on (hw s) + 1).
    { unfold s1. cbn [hw]. rewrite count_app. unfold count.
      cbn [filter is_power_on]. apply Z.leb_le in Hv. rewrite Hv.
      simpl. lia. }
    assert (Hoff1 : count is_power_off (hw s1) = count is_power_off (hw s)).
    { unfold s1. cbn [hw]. rewrite count_app. unfold count. simpl. lia. }
    assert (Hdesc1 : desc_dsi_only (desc (inst s1))) by exact Hdesc.
    cbn [Z.eqb negb].
    destruct (activate_events MS s1 Hdesc1) as (e1 & Htr1 & Hd1).
    apply count_dsi_events in Hd1. destruct Hd1 as [Hone Hoffe].
    destruct (ili9488_activate MS s1) as [err s2]. cbn [fst snd] in Htr1.
    destruct (err =? 0) eqn:Hz; cbn [negb]; unfold mret.
    + right. apply Z.eqb_eq in Hz. cbn [fst snd].
      rewrite Htr1, !count_app. lia.
    + left. apply Z.eqb_neq in Hz.
      destruct (power_off_counts E s2) as [Hon2 Hoff2].
      destruct (ili9488_power_off E s2) as [v2 s3]. cbn [fst snd] in *.
      rewrite Hon2, Hoff2, Htr1, !count_app. lia.
Qed.

(** C7: start Unprepared, with an init callback that only uses the multi
    helpers.  A [prepare] that fails leaves the instance Unprepared, and
    either no supply enable went through and no [power_off] ran, or one of
    each did.  A [prepare] that succeeds makes the instance Prepared with
    one supply enable and no [power_off]; the [unprepare] that follows makes
    it Unprepared again and runs the one matching [power_off]. *)
Theorem prepare_unprepare_balanced
    (E : hw_env) (MS : multi_sem) (s : driver_state) :
  desc_dsi_only (desc (inst s)) ->
  let ps0 := {| life := Unprepared; drv := s |} in
  let r1 := fst (host_prepare E MS ps0) in
  let ps1 := snd (host_prepare E MS ps0) in
  let ps2 := snd (host_unprepare E MS ps1) in
  let on ps := count is_power_on (hw (drv ps)) in
  let off ps := count is_power_off (hw (drv ps)) in
  (r1 <> 0 ->
   life ps1 = Unprepared /\
   ((on ps1 = on ps0 /\ off ps1 = off ps0) \/
    (on ps1 = on ps0 + 1 /\ off ps1 = off ps0 + 1))) /\
  (r1 = 0 ->
   life ps1 = Prepared /\ on ps1 = on ps0 + 1 /\ off ps1 = off ps0 /\
   life ps2 = Unprepared /\ on ps2 = on ps0 + 1 /\ off ps2 = off ps0 + 1 /\
   outstanding (hw (drv ps2)) = outstanding (hw s)).
Proof.
  intros Hdesc ps0 r1 ps1 ps2 on off.
  pose proof (prepare_counts E MS s Hdesc) as Hp. cbv zeta in Hp.
  assert (Hu : on ps2 = on ps1 /\ off ps2 = off ps1 + 1).
  { subst ps2 on off. unfold host_unprepare.
    pose proof (unprepare_counts E MS (drv ps1)) as Hu.
    destruct (ili9488_unprepare E MS (drv ps1)). exact Hu. }
  assert (Hl2 : life ps2 = Unprepared).
  { subst ps2. unfold host_unprepare.
    destruct (ili9488_unprepare E MS (drv ps1)). reflexivity. }
  destruct Hu as [Hu1 Hu2].
  subst r1 ps1 on off ps0. unfold host_prepare in *. cbn [drv life] in *.
  destruct (ili9488_prepare E MS s) as [r s1]. cbn [fst snd drv life hw] in *.
  unfold outstanding.
  split; intros Hr.
  - destruct (r =? 0) eqn:Hz; [apply Z.eqb_eq in Hz; contradiction|].
    split; [reflexivity|].
    destruct Hp as [(_ & H1 & H2)|[(_ & H1 & H2)|(H0 & _)]];
      [left; auto | right; auto | contradiction].
  - subst r. cbn [Z.eqb] in *.
    destruct Hp as [(H0 & _)|[(H0 & _)|(_ & H1 & H2)]];
      try (exfalso; apply H0; reflexivity).
    repeat split; auto; lia.
Qed.

Lemma prepare_unprepare_balanced_witness :
  let MS := multi_spec transport_ok in
  let ps0 := {| life := Unprepared; drv := sample_state MS |} in
  let ps1 := snd (host_prepare env_ok MS ps0) in
  let ps2 := snd (host_unprepare env_ok MS ps1) in
  life ps1 = Prepared /\
  count is_power_on (hw (drv ps1)) = count is_power_on (hw (drv ps0)) + 1 /\
  count is_power_off (hw (drv ps1)) = count is_power_off (hw (drv ps0)) /\
  life ps2 = Unprepared /\
  count is_power_on (hw (drv ps2)) = count is_power_on (hw (drv ps0)) + 1 /\
  count is_power_off (hw (drv ps2)) = count is_power_off (hw (drv ps0)) + 1 /\
  outstanding (hw (drv ps2)) = outstanding (hw (sample_state MS)).
Proof.
  intros MS ps0 ps1 ps2.
  destruct (prepare_unprepare_balanced env_ok MS (sample_state MS)
              (e35gh_i_mw800cb_init_dsi_only MS)) as [_ Hok].
  apply Hok. vm_compute. reflexivity.
Defined.

(** ** The instance, modes and orientation *)

(** C10: [prepare] and [unprepare] leave the instance as it was, field by
    field, on every path and whatever the hardware, the multi helpers and
    the init callback do. *)
Theorem prepare_unprepare_frame
    (E : hw_env) (MS : multi_sem) (s : driver_state) :
  let p := snd (ili9488_prepare E MS s) in
  let u := snd (ili9488_unprepare E MS s) in
  (inst p = inst s /\ inst u = inst s) /\
  (dsi (inst p) = dsi (inst s) /\ reset (inst p) = reset (inst s) /\
   power (inst p) = power (inst s) /\ desc (inst p) = desc (inst s) /\
   orientation (inst p) = orientation (inst s)) /\
  (dsi (inst u) = dsi (inst s) /\ reset (inst u) = reset (inst s) /\
   power (inst u) = power (inst s) /\ desc (inst u) = desc (inst s) /\
   orientation (inst u) = orientation (inst s)).
Proof.
  intros p u. subst p u.
  rewrite prepare_inst, unprepare_inst. repeat split.
Qed.

(** C8: after any sequence of [prepare] and [unprepare] calls, [get_modes]
    hands the framework helper the display mode of the descriptor the
    instance was created with, and leaves the state as it is, so that a
    second call gives the same; with the helper as the spec describes it,
    that is one mode, this one. *)
Theorem get_modes_fixed
    (E : hw_env) (MS : multi_sem) (drm_connector : Type)
    (helper : drm_connector -> drm_display_mode -> Z * drm_connector)
    (calls : list panel_call) (s : driver_state) (connector : drm_connector)
    (probed : list drm_display_mode) :
  let s' := run_calls E MS calls s in
  let mode := display_mode (desc (inst s)) in
  ili9488_get_modes drm_connector helper connector s' =
    (helper connector mode, s') /\
  ili9488_get_modes drm_connector helper connector
    (snd (ili9488_get_modes drm_connector helper connector s')) =
    (helper connector mode, s') /\
  ili9488_get_modes _ get_modes_fixed_spec probed s' =
    ((1, probed ++ [mode]), s') /\
  ili9488_get_orientation s' = (orientation (inst s), s').
Proof.
  intros s' mode.
  assert (Hinst : inst s' = inst s) by apply run_calls_inst.
  unfold ili9488_get_modes, ili9488_get_orientation, bind, read, mret.
  simpl. rewrite Hinst. repeat split.
Qed.

(** C9 as stated fails: the one mode [get_modes] reports for the registered
    model does not have a horizontal total of 420. *)
Lemma e35gh_htotal_not_420 :
  ~ (exists m,
       snd (fst (ili9488_get_modes _ get_modes_fixed_spec []
                   (sample_state (multi_spec transport_ok)))) = [m] /\
       htotal m = 420 /\ vtotal m = 540).
Proof.
  intros (m & Hm & Hh & _). simpl in Hm.
  injection Hm as Hm. subst m. discriminate Hh.
Qed.

(** C9, amended: the compatible string of the driver selects the e35gh
    descriptor; for an instance with that descriptor [get_modes] reports
    its static mode, with the 14256 kHz clock and the 320x480 active area,
    whose totals are htotal = 440 and vtotal = 540: the display size plus
    the sync-start offset (60, 20), the sync width (20, 10) and the blank
    offset (40, 30) of the descriptor.  With these totals the clock is that
    of a 60 Hz refresh. *)
Theorem e35gh_mode_totals
    (MS : multi_sem) (drm_connector : Type)
    (helper : drm_connector -> drm_display_mode -> Z * drm_connector)
    (connector : drm_connector) (s : driver_state) :
  desc (inst s) = e35gh_i_mw800cb_desc MS ->
  let m := e35gh_i_mw800cb_display_mode in
  device_get_match_data (ili9488_of_match MS) "focuslcd,e35gh-i-mw800cb" =
    Some (e35gh_i_mw800cb_desc MS) /\
  ili9488_get_modes drm_connector helper connector s =
    (helper connector m, s) /\
  (clock m = 14256 /\ hdisplay m = 320 /\ vdisplay m = 480) /\
  (htotal m = 440 /\ vtotal m = 540) /\
  clock m * 1000 = htotal m * vtotal m * 60 /\
  (hsync_start m = hdisplay m + 60 /\ hsync_end m = hsync_start m + 20 /\
   htotal m = hsync_end m + 40 /\ htotal m = hdisplay m + 60 + 20 + 40) /\
  (vsync_start m = vdisplay m + 20 /\ vsync_end m = vsync_start m + 10 /\
   vtotal m = vsync_end m + 30 /\ vtotal m = vdisplay m + 20 + 10 + 30).
Proof.
  intros Hdesc m. split; [reflexivity|]. split.
  - unfold ili9488_get_modes, bind, read, mret. rewrite Hdesc. reflexivity.
  - repeat split.
Qed.

Lemma e35gh_mode_totals_witness :
  ili9488_get_modes _ get_modes_fixed_spec []
      (sample_state (multi_spec transport_ok)) =
    ((1, [e35gh_i_mw800cb_display_mode]),
     sample_state (multi_spec transport_ok)) /\
  htotal e35gh_i_mw800cb_display_mode = 440 /\
  vtotal e35gh_i_mw800cb_display_mode = 540.
Proof.
  destruct (e35gh_mode_totals (multi_spec transport_ok) _
              get_modes_fixed_spec []
              (sample_state (multi_spec transport_ok)) eq_refl)
    as (_ & Hget & _ & Htot & _).
  split; [exact Hget | exact Htot].
Defined.

(** * More of the driver *)

(** ** How prepare and unprepare run *)

Lemma unprepare_run (E : hw_env) (MS : multi_sem) (s : driver_state) :
  let s1 := snd (ili9488_deactivate MS s) in
  let v := regulator_disable_ret E
             (hw s1 ++ [GpiodSetValue (reset (inst s)) 1]) (power (inst s)) in
  ili9488_unprepare E MS s =
    (v, {| inst := inst s;
           hw := hw s1 ++
                 [GpiodSetValue (reset (inst s)) 1;
                  RegulatorDisable (power (inst s)) v] ++
                 (if v =? 0 then []
                  else [DevErr (dsi (inst s))
                          "regulator disable failed: %d\n" v]) ++
                 (if v <? 0
                  then [DevErr (dsi (inst s)) "power off failed: %d\n" v]
                  else []) |}).
Proof.
  intros s1 v.
  assert (Hinst : inst s1 = inst s) by apply deactivate_inst.
  pose proof (power_off_run E s1) as Hoff. cbv zeta in Hoff.
  rewrite Hinst in Hoff. fold v in Hoff.
  unfold ili9488_unprepare, bind, read. subst s1.
  destruct (ili9488_deactivate MS s) as [r s1']. cbn [fst snd] in *.
  rewrite Hoff.
  destruct (v <? 0); unfold lift, dev_err, emit, mret; cbn [inst hw];
    destruct (v =? 0); cbn [app]; repeat rewrite <- app_assoc; reflexivity.
Qed.

(** The two ways [prepare] goes on once the supply is up. *)
Lemma prepare_enabled (E : hw_env) (MS : multi_sem) (s : driver_state) :
  let v := regulator_enable_ret E (hw s) (power (inst s)) in
  let s1 := snd (ili9488_power_on E s) in
  0 <= v ->
  ili9488_prepare E MS s =
    (if fst (ili9488_activate MS s1) =? 0
     then (0, snd (ili9488_activate MS s1))
     else (fst (ili9488_activate MS s1),
           snd (ili9488_power_off E (snd (ili9488_activate MS s1))))).
Proof.
  intros v s1 Hv. subst s1. unfold ili9488_prepare, bind.
  rewrite (power_on_enabled E s Hv). cbn [fst snd Z.eqb negb].
  destruct (ili9488_activate MS _) as [err s2]. cbn [fst snd].
  destruct (err =? 0) eqn:Hz; cbn [negb]; unfold mret.
  - reflexivity.
  - destruct (ili9488_power_off E s2). reflexivity.
Qed.

Lemma prepare_refused (E : hw_env) (MS : multi_sem) (s : driver_state) :
  let v := regulator_enable_ret E (hw s) (power (inst s)) in
  v < 0 ->
  ili9488_prepare E MS s =
    (v, {| inst := inst s;
           hw := hw s ++
                 [RegulatorEnable (power (inst s)) v;
                  DevErr (dsi (inst s)) "regulator enable failed: %d\n" v] |}).
Proof.
  intros v Hv. unfold ili9488_prepare, bind.
  rewrite (power_on_refused E s Hv). fold v.
  destruct (v =? 0) eqn:Hz; [apply Z.eqb_eq in Hz; lia|]. reflexivity.
Qed.

(** X1: [prepare] returns the supply-enable error when the enable is
    refused and otherwise what [activate] returned; it returns zero exactly
    when the supply came up and [activate] returned zero. *)
Theorem prepare_result (E : hw_env) (MS : multi_sem) (s : driver_state) :
  let v := regulator_enable_ret E (hw s) (power (inst s)) in
  let a := fst (ili9488_activate MS (snd (ili9488_power_on E s))) in
  fst (ili9488_prepare E MS s) = (if v <? 0 then v else a) /\
  (fst (ili9488_prepare E MS s) = 0 <-> 0 <= v /\ a = 0).
Proof.
  intros v a.
  assert (Hres : fst (ili9488_prepare E MS s) = (if v <? 0 then v else a)).
  { destruct (v <? 0) eqn:Hv.
    - apply Z.ltb_lt in Hv. rewrite (prepare_refused E MS s Hv). reflexivity.
    - apply Z.ltb_ge in Hv. rewrite (prepare_enabled E MS s Hv). fold a.
      destruct (a =? 0) eqn:Ha; [apply Z.eqb_eq in Ha; rewrite Ha|];
        reflexivity. }
  split; [exact Hres|]. rewrite Hres.
  destruct (v <? 0) eqn:Hv.
  - apply Z.ltb_lt in Hv. split; intros; lia.
  - apply Z.ltb_ge in Hv. split; intros; [split; auto | tauto].
Qed.

(** X2: [deactivate] works on one fresh context and calls, in this order
    and nothing else, set-display-off, enter-sleep-mode and the sleep of
    120 ms; it returns the error accumulated in the context and touches
    neither the supply nor the reset line. *)
Theorem deactivate_issues_in_order (MS : multi_sem) (s : driver_state) :
  let d := dsi (inst s) in
  exists ctx evs,
    run_batch MS deactivate_ops {| ctx_dsi := d; accum_err := 0 |} (hw s) =
      (ctx, hw s ++ evs) /\
    ili9488_deactivate MS s =
      (accum_err ctx, {| inst := inst s; hw := hw s ++ evs |}) /\
    filter is_multi_call evs =
      [MultiCall d (MultiWrite DcsSetDisplayOff);
       MultiCall d (MultiWrite DcsEnterSleepMode);
       MultiCall d (MultiMsleep 120)] /\
    forallb is_dsi_event evs = true.
Proof.
  intros d. pose proof (deactivate_batch MS s) as Hde. fold d in Hde.
  destruct (run_batch_events MS deactivate_ops
              {| ctx_dsi := d; accum_err := 0 |} (hw s))
    as (evs & Htr & Hcalls & Hdsi & _).
  destruct (run_batch MS deactivate_ops _ (hw s)) as [ctx tr].
  cbn [fst snd] in Htr. subst tr.
  exists ctx, evs. repeat split; auto.
Qed.

(** ** The shape of the traces *)

Lemma prepare_shape (E : hw_env) (MS : multi_sem) (s : driver_state) :
  desc_dsi_only (desc (inst s)) ->
  let v := regulator_enable_ret E (hw s) (power (inst s)) in
  let p := power (inst s) in
  let g := reset (inst s) in
  let pon := [RegulatorEnable p v;
              GpiodSetValue g 0; UsleepRange 1000 5000;
              GpiodSetValue g 1; UsleepRange 1000 5000;
              GpiodSetValue g 0; UsleepRange 5000 10000] in
  0 <= v ->
  exists e1,
    forallb is_dsi_event e1 = true /\
    ((fst (ili9488_prepare E MS s) = 0 /\
      hw (snd (ili9488_prepare E MS s)) = hw s ++ pon ++ e1) \/
     (fst (ili9488_prepare E MS s) <> 0 /\
      exists v2,
        hw (snd (ili9488_prepare E MS s)) =
          hw s ++ pon ++ e1 ++
          [GpiodSetValue g 1; RegulatorDisable p v2] ++
          (if v2 =? 0 then []
           else [DevErr (dsi (inst s))
                   "regulator disable failed: %d\n" v2]))).
Proof.
  intros Hdesc v p g pon Hv.
  rewrite (prepare_enabled E MS s Hv).
  pose proof (power_on_enabled E s Hv) as Hon. cbv zeta in Hon.
  fold v p g pon in Hon.
  set (s1 := snd (ili9488_power_on E s)).
  assert (Hs1 : s1 = {| inst := inst s; hw := hw s ++ pon |}).
  { unfold s1. rewrite Hon. reflexivity. }
  assert (Hdesc1 : desc_dsi_only (desc (inst s1))).
  { rewrite Hs1. exact Hdesc. }
  destruct (activate_events MS s1 Hdesc1) as (e1 & Htr1 & Hd1).
  pose proof (activate_inst MS s1) as Hinst2.
  destruct (ili9488_activate MS s1) as [err s2]. cbn [fst snd] in *.
  rewrite Hs1 in Htr1, Hinst2. cbn [inst hw] in Htr1, Hinst2.
  exists e1. split; [exact Hd1|].
  destruct (err =? 0) eqn:Hz; cbn [fst snd].
  - left. split; [reflexivity|]. rewrite Htr1, app_assoc. reflexivity.
  - right. apply Z.eqb_neq in Hz. split; [exact Hz|].
    rewrite power_off_run. cbn [snd hw]. rewrite Hinst2, Htr1.
    fold p g.
    exists (regulator_disable_ret E
              ((hw s ++ pon) ++ e1 ++ [GpiodSetValue g 1]) p).
    rewrite <- !app_assoc. reflexivity.
Qed.

Lemma unprepare_shape (E : hw_env) (MS : multi_sem) (s : driver_state) :
  let p := power (inst s) in
  let g := reset (inst s) in
  exists e1 v,
    forallb is_dsi_event e1 = true /\
    fst (ili9488_unprepare E MS s) = v /\
    hw (snd (ili9488_unprepare E MS s)) =
      hw s ++ e1 ++
      [GpiodSetValue g 1; RegulatorDisable p v] ++
      (if v =? 0 then []
       else [DevErr (dsi (inst s)) "regulator disable failed: %d\n" v]) ++
      (if v <? 0 then [DevErr (dsi (inst s)) "power off failed: %d\n" v]
       else []).
Proof.
  intros p g. rewrite unprepare_run.
  destruct (deactivate_events MS s) as (e1 & Htr1 & Hd1).
  rewrite Htr1. cbn [fst snd hw]. fold p g.
  exists e1, (regulator_disable_ret E
                ((hw s ++ e1) ++ [GpiodSetValue g 1]) p).
  repeat split; auto. rewrite <- !app_assoc. reflexivity.
Qed.

Lemma line_level_from_app (g : gpio_desc) (cur : option Z) (a b : trace) :
  line_level_from g cur (a ++ b) =
  line_level_from g (line_level_from g cur a) b.
Proof. unfold line_level_from. apply fold_left_app. Qed.

Lemma line_level_from_dsi (g : gpio_desc) (evs : trace) :
  forall cur,
    forallb is_dsi_event evs = true -> line_level_from g cur evs = cur.
Proof.
  induction evs as [|e evs IH]; intros cur H; [reflexivity|].
  cbn [forallb] in H. apply andb_prop in H. destruct H as [He Hevs].
  destruct e; try discriminate He; exact (IH cur Hevs).
Qed.

Lemma own_resources_dsi (ili : ili9488) (evs : trace) :
  forallb is_dsi_event evs = true ->
  forallb (on_own_resources ili) evs = true.
Proof.
  induction evs as [|e evs IH]; intros H; [reflexivity|].
  cbn [forallb] in *. apply andb_prop in H. destruct H as [He Hevs].
  rewrite (IH Hevs). destruct e; try discriminate He; reflexivity.
Qed.

(** X3: where the reset line is left.  With an init callback that only
    uses the multi helpers: a [prepare] that returns zero leaves the reset
    line of the instance deasserted; a [prepare] that fails after the supply
    came up leaves it asserted; a [prepare] whose supply enable is refused
    leaves it as it was; [unprepare] always leaves it asserted. *)
Theorem reset_line_after (E : hw_env) (MS : multi_sem) (s : driver_state) :
  desc_dsi_only (desc (inst s)) ->
  let v := regulator_enable_ret E (hw s) (power (inst s)) in
  let g := reset (inst s) in
  let r := fst (ili9488_prepare E MS s) in
  let after_prepare := hw (snd (ili9488_prepare E MS s)) in
  (r = 0 -> line_level g after_prepare = Some 0) /\
  (r <> 0 -> 0 <= v -> line_level g after_prepare = Some 1) /\
  (v < 0 -> line_level g after_prepare = line_level g (hw s)) /\
  line_level g (hw (snd (ili9488_unprepare E MS s))) = Some 1.
Proof.
  intros Hdesc v g r after_prepare. subst r after_prepare.
  assert (Hgg : Nat.eqb g g = true) by apply Nat.eqb_refl.
  assert (Hen : 0 <= v ->
    (fst (ili9488_prepare E MS s) = 0 /\
     line_level g (hw (snd (ili9488_prepare E MS s))) = Some 0) \/
    (fst (ili9488_prepare E MS s) <> 0 /\
     line_level g (hw (snd (ili9488_prepare E MS s))) = Some 1)).
  { intros Hv.
    destruct (prepare_shape E MS s Hdesc Hv) as (e1 & Hd1 & Hcases).
    fold v g in Hcases.
    destruct Hcases as [[Hr Htr]|[Hr (v2 & Htr)]]; [left|right];
      (split; [exact Hr|]); rewrite Htr; unfold line_level;
      rewrite !line_level_from_app.
    - rewrite (line_level_from_dsi g e1 _ Hd1).
      unfold line_level_from. cbn [fold_left]. rewrite Hgg. reflexivity.
    - rewrite (line_level_from_dsi g e1 _ Hd1).
      destruct (v2 =? 0); unfold line_level_from; cbn [fold_left app];
        rewrite Hgg; reflexivity. }
  split; [|split; [|split]].
  - intros Hr. destruct (Z.lt_ge_cases v 0) as [Hv|Hv].
    + rewrite (prepare_refused E MS s Hv) in Hr. cbn [fst] in Hr.
      fold v in Hr. lia.
    + destruct (Hen Hv) as [[_ H]|[Hne _]]; [exact H | contradiction].
  - intros Hr Hv. destruct (Hen Hv) as [[H0 _]|[_ H]];
      [contradiction | exact H].
  - intros Hv. rewrite (prepare_refused E MS s Hv). cbn [snd hw].
    unfold line_level. rewrite line_level_from_app. reflexivity.
  - destruct (unprepare_shape E MS s) as (e1 & v2 & Hd1 & _ & Htr).
    fold g in Htr. rewrite Htr. unfold line_level.
    rewrite !line_level_from_app, (line_level_from_dsi g e1 _ Hd1).
    destruct (v2 =? 0), (v2 <? 0); unfold line_level_from;
      cbn [fold_left app]; rewrite Hgg; reflexivity.
Qed.

(** X4: [prepare] and [unprepare] only add to the trace, and every
    regulator call, reset-line write and log line they add is on the
    instance's own supply, reset line and device (the init callback using
    only the multi helpers). *)
Theorem driver_keeps_to_own_resources
    (E : hw_env) (MS : multi_sem) (s : driver_state) :
  desc_dsi_only (desc (inst s)) ->
  exists ep eu,
    hw (snd (ili9488_prepare E MS s)) = hw s ++ ep /\
    forallb (on_own_resources (inst s)) ep = true /\
    hw (snd (ili9488_unprepare E MS s)) = hw s ++ eu /\
    forallb (on_own_resources (inst s)) eu = true.
Proof.
  intros Hdesc.
  assert (Hp : exists ep,
             hw (snd (ili9488_prepare E MS s)) = hw s ++ ep /\
             forallb (on_own_resources (inst s)) ep = true).
  { destruct (Z.lt_ge_cases
                (regulator_enable_ret E (hw s) (power (inst s))) 0)
      as [Hv|Hv].
    - rewrite (prepare_refused E MS s Hv). eexists. split; [reflexivity|].
      cbn [forallb on_own_resources]. rewrite !Nat.eqb_refl. reflexivity.
    - destruct (prepare_shape E MS s Hdesc Hv) as (e1 & Hd1 & Hcases).
      apply (own_resources_dsi (inst s)) in Hd1.
      destruct Hcases as [[_ Htr]|[_ (v2 & Htr)]];
        (eexists; split; [exact Htr|]).
      + rewrite forallb_app, Hd1. cbn [forallb on_own_resources].
        rewrite !Nat.eqb_refl. reflexivity.
      + rewrite !forallb_app, Hd1. destruct (v2 =? 0);
          cbn [forallb on_own_resources]; rewrite !Nat.eqb_refl;
          reflexivity. }
  destruct Hp as (ep & Htrp & Hownp).
  destruct (unprepare_shape E MS s) as (e1 & v2 & Hd1 & _ & Htr).
  apply (own_resources_dsi (inst s)) in Hd1.
  exists ep. eexists. split; [exact Htrp|]. split; [exact Hownp|].
  split; [exact Htr|].
  rewrite !forallb_app, Hd1.
  destruct (v2 =? 0), (v2 <? 0); cbn [forallb on_own_resources];
    rewrite !Nat.eqb_refl; reflexivity.
Qed.

Lemma run_call_outstanding
    (E : hw_env) (MS : multi_sem) (c : panel_call) (s : driver_state) :
  desc_dsi_only (desc (inst s)) ->
  outstanding (hw (snd (run_call E MS c s))) =
    outstanding (hw s) +
    match c with
    | CallPrepare => if fst (run_call E MS c s) =? 0 then 1 else 0
    | CallUnprepare => -1
    end.
Proof.
  intros Hdesc. unfold outstanding. destruct c; cbn [run_call].
  - pose proof (prepare_counts E MS s Hdesc) as Hp. cbv zeta in Hp.
    destruct (fst (ili9488_prepare E MS s) =? 0) eqn:Hz.
    + apply Z.eqb_eq in Hz.
      destruct Hp as [(H0 & _)|[(H0 & _)|(_ & H1 & H2)]];
        [contradiction | contradiction | lia].
    + apply Z.eqb_neq in Hz.
      destruct Hp as [(_ & H1 & H2)|[(_ & H1 & H2)|(H0 & _)]];
        [lia | lia | contradiction].
  - destruct (unprepare_counts E MS s) as [H1 H2]. lia.
Qed.

(** X5: over any sequence of [prepare] and [unprepare] calls, in any order
    and with any outcomes, the supply enables not matched by a [power_off]
    change by the number of [prepare]s that returned zero minus the number
    of [unprepare]s: the driver itself does not refuse a second [prepare] or
    an [unprepare] of a panel that is not prepared. *)
Theorem run_calls_outstanding
    (E : hw_env) (MS : multi_sem) (cs : list panel_call) (s : driver_state) :
  desc_dsi_only (desc (inst s)) ->
  outstanding (hw (run_calls E MS cs s)) =
    outstanding (hw s) + net_prepares E MS cs s.
Proof.
  revert s. induction cs as [|c cs IH]; intros s Hdesc.
  - cbn [run_calls net_prepares]. lia.
  - cbn [run_calls net_prepares].
    pose proof (run_call_outstanding E MS c s Hdesc) as Hc.
    assert (Hinst : inst (snd (run_call E MS c s)) = inst s).
    { destruct c; [apply prepare_inst | apply unprepare_inst]. }
    destruct (run_call E MS c s) as [r s'] eqn:Hrun. cbn [fst snd] in *.
    rewrite IH by (rewrite Hinst; exact Hdesc). rewrite Hc. lia.
Qed.

Lemma reset_line_after_witness :
  let MS := multi_spec transport_ok in
  line_level 8%nat
    (hw (snd (ili9488_prepare env_ok MS (sample_state MS)))) = Some 0.
Proof.
  intros MS.
  destruct (reset_line_after env_ok MS (sample_state MS)
              (e35gh_i_mw800cb_init_dsi_only MS)) as (Hok & _).
  apply Hok. vm_compute. reflexivity.
Defined.

Lemma driver_keeps_to_own_resources_witness :
  let MS := multi_spec transport_ok in
  let s := sample_state MS in
  exists ep eu,
    hw (snd (ili9488_prepare env_disable_fails MS s)) = hw s ++ ep /\
    forallb (on_own_resources (inst s)) ep = true /\
    hw (snd (ili9488_unprepare env_disable_fails MS s)) = hw s ++ eu /\
    forallb (on_own_resources (inst s)) eu = true.
Proof.
  intros MS s.
  exact (driver_keeps_to_own_resources env_disable_fails MS s
           (e35gh_i_mw800cb_init_dsi_only MS)).
Defined.

(** Two [prepare]s in a row and one [unprepare]: one supply enable is left
    unmatched. *)
Lemma run_calls_outstanding_witness :
  let MS := multi_spec transport_ok in
  let cs := [CallPrepare; CallPrepare; CallUnprepare] in
  outstanding (hw (run_calls env_ok MS cs (sample_state MS))) =
    outstanding (hw (sample_state MS)) +
    net_prepares env_ok MS cs (sample_state MS) /\
  net_prepares env_ok MS cs (sample_state MS) = 1.
Proof.
  intros MS cs. split.
  - exact (run_calls_outstanding env_ok MS cs (sample_state MS)
             (e35gh_i_mw800cb_init_dsi_only MS)).
  - vm_compute. reflexivity.
Defined.

(** ** Attach *)

Ltac probe_unfold :=
  unfold ili9488_dsi_probe_matched, devm_gpiod_get, devm_regulator_get,
    of_drm_get_panel_orientation, drm_panel_of_backlight, drm_panel_add,
    drm_panel_remove, mipi_dsi_attach, mipi_dsi_detach, dev_err_probe,
    mipi_dsi_set_drvdata, set_dsi_config, update_cell, set_cell, plog_emit,
    bind, mret;
  cbn [cell drvdata dsi_mode_flags dsi_format dsi_lanes plog fst snd
       option_map].

Lemma attach_steps_ok_inv (K : err_api) (A : attach_env) :
  attach_steps_ok K A = true ->
  IS_ERR K (gpiod_get_ptr A) = false /\
  IS_ERR K (regulator_get_ptr A) = false /\
  orientation_ret A = 0 /\
  backlight_ret A = 0 /\
  0 <= attach_ret A.
Proof.
  unfold attach_steps_ok. intros H.
  repeat (apply andb_prop in H; destruct H as [H ?]).
  repeat match goal with
    | H : negb _ = true |- _ => apply negb_true_iff in H
    | H : (_ =? _) = true |- _ => apply Z.eqb_eq in H
    | H : (_ <? _) = false |- _ => apply Z.ltb_ge in H
    end.
  auto.
Qed.

Lemma probe_matched_success (K : err_api) (A : attach_env)
    (dev : mipi_dsi_device) (d : ili9488_desc) (w : probe_state) :
  attach_steps_ok K A = true ->
  ili9488_dsi_probe_matched K A dev d w =
    (0, {| cell := Some {| panel := {| prepare_prev_first := true |};
                           dsi := dev;
                           reset := gpiod_get_ptr A;
                           power := regulator_get_ptr A;
                           desc := d;
                           orientation :=
                             match orientation_out A with
                             | Some o => o
                             | None => 0
                             end |};
           drvdata := Some (panel_alloc_ptr A);
           dsi_mode_flags := mode_flags d;
           dsi_format := Some (format d);
           dsi_lanes := lanes d;
           plog := plog w ++
                   [SetDrvdata dev (panel_alloc_ptr A);
                    GpiodGet "reset" GPIOD_OUT_LOW (gpiod_get_ptr A);
                    RegulatorGet "power" (regulator_get_ptr A);
                    GetPanelOrientation 0;
                    PanelOfBacklight 0;
                    PanelAdd (panel_alloc_ptr A);
                    DsiAttach dev (attach_ret A)] |}).
Proof.
  intros Hok. apply attach_steps_ok_inv in Hok.
  destruct Hok as (Hg & Hr & Ho & Hb & Ha).
  apply Z.ltb_ge in Ha.
  probe_unfold. rewrite Hg, Hr, Ho, Hb.
  destruct (orientation_out A); simpl; rewrite Ha; simpl;
    repeat rewrite <- app_assoc; reflexivity.
Qed.

Lemma pcount_app (p : probe_event -> bool) (a b : list probe_event) :
  pcount p (a ++ b) = pcount p a + pcount p b.
Proof.
  unfold pcount. rewrite filter_app, length_app. lia.
Qed.

(** X6: when the allocation and every later step go through, [probe] of a
    device with the driver's compatible string returns zero and leaves an
    instance that holds the device, the reset line and the supply it was
    given, the e35gh descriptor and the orientation read, with
    [prepare_prev_first] set; the DSI device carries the descriptor's mode
    flags, format and lane count; the panel was added, then the device
    attached, and nothing was removed. *)
Theorem probe_success (K : err_api) (A : attach_env) (MS : multi_sem)
    (dev : mipi_dsi_device) (w : probe_state) :
  IS_ERR K (panel_alloc_ptr A) = false ->
  attach_steps_ok K A = true ->
  let d := e35gh_i_mw800cb_desc MS in
  ili9488_dsi_probe K A MS "focuslcd,e35gh-i-mw800cb" dev w =
    Some
      (0, {| cell := Some {| panel := {| prepare_prev_first := true |};
                             dsi := dev;
                             reset := gpiod_get_ptr A;
                             power := regulator_get_ptr A;
                             desc := d;
                             orientation :=
                               match orientation_out A with
                               | Some o => o
                               | None => 0
                               end |};
             drvdata := Some (panel_alloc_ptr A);
             dsi_mode_flags := mode_flags d;
             dsi_format := Some (format d);
             dsi_lanes := lanes d;
             plog := plog w ++
                     [PanelAlloc (panel_alloc_ptr A);
                      SetDrvdata dev (panel_alloc_ptr A);
                      GpiodGet "reset" GPIOD_OUT_LOW (gpiod_get_ptr A);
                      RegulatorGet "power" (regulator_get_ptr A);
                      GetPanelOrientation 0;
                      PanelOfBacklight 0;
                      PanelAdd (panel_alloc_ptr A);
                      DsiAttach dev (attach_ret A)] |}).
Proof.
  intros Halloc Hok d. unfold ili9488_dsi_probe, plog_emit.
  rewrite Halloc. cbn [device_get_match_data ili9488_of_match].
  rewrite String.eqb_refl.
  rewrite (probe_matched_success K A dev _ _ Hok).
  cbn [plog]. rewrite <- app_assoc. reflexivity.
Qed.

Lemma probe_success_witness :
  let MS := multi_spec transport_ok in
  exists w,
    ili9488_dsi_probe sample_err_api attach_ok MS
      "focuslcd,e35gh-i-mw800cb" 7%nat probe_state0 = Some (0, w) /\
    cell w = Some {| panel := {| prepare_prev_first := true |};
                     dsi := 7%nat; reset := 8%nat; power := 9%nat;
                     desc := e35gh_i_mw800cb_desc MS; orientation := 1 |}.
Proof.
  intros MS. eexists. split.
  - apply (probe_success sample_err_api attach_ok MS 7%nat probe_state0);
      reflexivity.
  - reflexivity.
Defined.

Ltac probe_count :=
  repeat split; try reflexivity;
  rewrite ?pcount_app; unfold pcount; simpl; lia.

Lemma probe_matched_registered (K : err_api) (A : attach_env)
    (dev : mipi_dsi_device) (d : ili9488_desc) (w : probe_state) :
  let w' := snd (ili9488_dsi_probe_matched K A dev d w) in
  registered (plog w') =
    registered (plog w) + (if attach_steps_ok K A then 1 else 0) /\
  pcount is_dsi_attach (plog w') <= pcount is_dsi_attach (plog w) + 1 /\
  drvdata w' = Some (panel_alloc_ptr A).
Proof.
  unfold attach_steps_ok, registered. probe_unfold. simpl.
  destruct (IS_ERR K (gpiod_get_ptr A)); simpl; [probe_count|].
  destruct (IS_ERR K (regulator_get_ptr A)); simpl; [probe_count|].
  destruct (orientation_out A); simpl;
    (destruct (orientation_ret A =? 0); simpl; [|probe_count]);
    (destruct (backlight_ret A =? 0); simpl; [|probe_count]);
    destruct (attach_ret A <? 0); simpl; probe_count.
Qed.

(** X7: however [probe] ends, as long as it returns, the panel is left
    registered exactly when the allocation and every later step went
    through; in every other case as many panels were removed as were added.
    The device is attached at most once, and the driver data of the device
    is set whenever the allocation succeeded. *)
Theorem probe_registers_iff_all_ok
    (K : err_api) (A : attach_env) (MS : multi_sem) (compatible : string)
    (dev : mipi_dsi_device) (w w' : probe_state) (r : Z) :
  ili9488_dsi_probe K A MS compatible dev w = Some (r, w') ->
  let all_ok := negb (IS_ERR K (panel_alloc_ptr A)) && attach_steps_ok K A in
  registered (plog w') = registered (plog w) + (if all_ok then 1 else 0) /\
  pcount is_dsi_attach (plog w') <= pcount is_dsi_attach (plog w) + 1 /\
  (all_ok = true -> r = 0) /\
  (IS_ERR K (panel_alloc_ptr A) = false ->
   drvdata w' = Some (panel_alloc_ptr A)).
Proof.
  unfold ili9488_dsi_probe, plog_emit.
  destruct (IS_ERR K (panel_alloc_ptr A)) eqn:Halloc.
  - intros H. injection H as Hr Hw. subst w'. cbn [plog negb andb].
    unfold registered. rewrite !pcount_app. unfold pcount. simpl.
    repeat split; try lia; discriminate.
  - destruct (device_get_match_data (ili9488_of_match MS) compatible)
      as [d|]; [|discriminate].
    intros H. injection H as H.
    set (w1 := {| cell := cell w; drvdata := drvdata w;
                  dsi_mode_flags := dsi_mode_flags w;
                  dsi_format := dsi_format w; dsi_lanes := dsi_lanes w;
                  plog := plog w ++ [PanelAlloc (panel_alloc_ptr A)] |}) in *.
    destruct (probe_matched_registered K A dev d w1) as (Hreg & Hatt & Hdrv).
    assert (Hok : attach_steps_ok K A = true -> r = 0).
    { intros Hok. rewrite (probe_matched_success K A dev d w1 Hok) in H.
      injection H as Hr _. auto. }
    rewrite H in Hreg, Hatt, Hdrv. cbn [snd negb andb] in *.
    unfold w1 in Hreg, Hatt. cbn [plog] in Hreg, Hatt.
    unfold registered in *. rewrite !pcount_app in *.
    change (pcount is_panel_add [PanelAlloc (panel_alloc_ptr A)])
      with 0 in *.
    change (pcount is_panel_remove [PanelAlloc (panel_alloc_ptr A)])
      with 0 in *.
    change (pcount is_dsi_attach [PanelAlloc (panel_alloc_ptr A)])
      with 0 in *.
    repeat split; auto; lia.
Qed.

Lemma probe_registers_iff_all_ok_witness :
  let MS := multi_spec transport_ok in
  match ili9488_dsi_probe sample_err_api attach_refused MS
          "focuslcd,e35gh-i-mw800cb" 7%nat probe_state0 with
  | Some (r, w') =>
      registered (plog w') = registered (plog probe_state0) + 0 /\
      pcount is_dsi_attach (plog w') <=
        pcount is_dsi_attach (plog probe_state0) + 1
  | None => False
  end.
Proof.
  intros MS.
  destruct (ili9488_dsi_probe sample_err_api attach_refused MS
              "focuslcd,e35gh-i-mw800cb" 7%nat probe_state0)
    as [[r w']|] eqn:Hrun.
  - destruct (probe_registers_iff_all_ok sample_err_api attach_refused MS
                "focuslcd,e35gh-i-mw800cb" 7%nat probe_state0 w' r Hrun)
      as (Hreg & Hatt & _).
    split; [exact Hreg | exact Hatt].
  - vm_compute in Hrun. discriminate Hrun.
Defined.

Lemma probe_matched_entry (K : err_api) (A : attach_env) (MS : multi_sem)
    (compatible : string) (dev : mipi_dsi_device) (d : ili9488_desc)
    (w : probe_state) :
  IS_ERR K (panel_alloc_ptr A) = false ->
  device_get_match_data (ili9488_of_match MS) compatible = Some d ->
  ili9488_dsi_probe K A MS compatible dev w =
    Some (ili9488_dsi_probe_matched K A dev d
            {| cell := cell w; drvdata := drvdata w;
               dsi_mode_flags := dsi_mode_flags w;
               dsi_format := dsi_format w; dsi_lanes := dsi_lanes w;
               plog := plog w ++ [PanelAlloc (panel_alloc_ptr A)] |}).
Proof.
  intros Halloc Hd. unfold ili9488_dsi_probe, plog_emit.
  rewrite Halloc, Hd. reflexivity.
Qed.

(** X8: a resource that cannot be had stops [probe] there.  With the
    allocation and the match data in place, the first of the reset line,
    the supply, the orientation and the backlight that fails is logged
    through [dev_err_probe], whose answer for that error [probe] returns;
    no later resource is asked for, the panel is not added and the device
    is not attached. *)
Theorem probe_stops_at_failed_acquisition
    (K : err_api) (A : attach_env) (MS : multi_sem) (compatible : string)
    (dev : mipi_dsi_device) (d : ili9488_desc) (w : probe_state) :
  IS_ERR K (panel_alloc_ptr A) = false ->
  device_get_match_data (ili9488_of_match MS) compatible = Some d ->
  let p := panel_alloc_ptr A in
  let g := gpiod_get_ptr A in
  let reg := regulator_get_ptr A in
  let run := ili9488_dsi_probe K A MS compatible dev w in
  let result := option_map fst run in
  let log := option_map (fun x => plog (snd x)) run in
  let start := [PanelAlloc p; SetDrvdata dev p;
                GpiodGet "reset" GPIOD_OUT_LOW g] in
  (IS_ERR K g = true ->
   result = Some (dev_err_probe_ret K (PTR_ERR K g)) /\
   log = Some (plog w ++ start ++
               [DevErrProbe (PTR_ERR K g) "failed to get reset-gpios\n"])) /\
  (IS_ERR K g = false -> IS_ERR K reg = true ->
   result = Some (dev_err_probe_ret K (PTR_ERR K reg)) /\
   log = Some (plog w ++ start ++
               [RegulatorGet "power" reg;
                DevErrProbe (PTR_ERR K reg)
                  "failed to get power regulator\n"])) /\
  (IS_ERR K g = false -> IS_ERR K reg = false -> orientation_ret A <> 0 ->
   result = Some (dev_err_probe_ret K (orientation_ret A)) /\
   log = Some (plog w ++ start ++
               [RegulatorGet "power" reg;
                GetPanelOrientation (orientation_ret A);
                DevErrProbe (orientation_ret A)
                  "failed to get orientation\n"])) /\
  (IS_ERR K g = false -> IS_ERR K reg = false -> orientation_ret A = 0 ->
   backlight_ret A <> 0 ->
   result = Some (dev_err_probe_ret K (backlight_ret A)) /\
   log = Some (plog w ++ start ++
               [RegulatorGet "power" reg;
                GetPanelOrientation 0;
                PanelOfBacklight (backlight_ret A);
                DevErrProbe (backlight_ret A)
                  "failed to get backlight\n"])).
Proof.
  intros Halloc Hd p g reg run result log start.
  subst result log run. rewrite (probe_matched_entry K A MS _ dev d w Halloc Hd).
  subst p g reg start. cbn [option_map]. probe_unfold. simpl.
  split; [|split; [|split]].
  - intros Hg. rewrite Hg. simpl. rewrite <- !app_assoc. auto.
  - intros Hg Hr. rewrite Hg. simpl. rewrite Hr. simpl.
    rewrite <- !app_assoc. auto.
  - intros Hg Hr Ho. rewrite Hg. simpl. rewrite Hr. simpl.
    apply Z.eqb_neq in Ho.
    destruct (orientation_out A); simpl; rewrite Ho; simpl;
      rewrite <- !app_assoc; auto.
  - intros Hg Hr Ho Hb. rewrite Hg. simpl. rewrite Hr. simpl.
    apply Z.eqb_neq in Hb.
    destruct (orientation_out A); simpl; rewrite Ho; simpl; rewrite Hb;
      simpl; rewrite <- !app_assoc; auto.
Qed.

(** The supply is not there yet: [probe] returns [-517] after asking for
    the reset line and the supply, and for nothing else. *)
Lemma probe_stops_at_failed_acquisition_witness :
  let MS := multi_spec transport_ok in
  let run := ili9488_dsi_probe sample_err_api attach_no_regulator MS
               "focuslcd,e35gh-i-mw800cb" 7%nat probe_state0 in
  option_map fst run = Some (-517) /\
  option_map (fun x => plog (snd x)) run =
    Some ([] ++
          [PanelAlloc 40%nat; SetDrvdata 7%nat 40%nat;
           GpiodGet "reset" GPIOD_OUT_LOW 8%nat] ++
          [RegulatorGet "power" 1516%nat;
           DevErrProbe (-517) "failed to get power regulator\n"]).
Proof.
  intros MS run.
  destruct (probe_stops_at_failed_acquisition sample_err_api
              attach_no_regulator MS "focuslcd,e35gh-i-mw800cb" 7%nat
              (e35gh_i_mw800cb_desc MS) probe_state0 eq_refl eq_refl)
    as (_ & Hreg & _).
  apply Hreg; reflexivity.
Defined.

(** X9: when the DSI host refuses the device, [probe] has added the panel,
    logs the failure, removes the panel again and returns the error of
    [mipi_dsi_attach] itself.  The driver data and the configuration
    written to the DSI device stay as they were set. *)
Theorem probe_attach_failure_rolls_back
    (K : err_api) (A : attach_env) (MS : multi_sem) (compatible : string)
    (dev : mipi_dsi_device) (d : ili9488_desc) (w : probe_state) :
  IS_ERR K (panel_alloc_ptr A) = false ->
  device_get_match_data (ili9488_of_match MS) compatible = Some d ->
  IS_ERR K (gpiod_get_ptr A) = false ->
  IS_ERR K (regulator_get_ptr A) = false ->
  orientation_ret A = 0 ->
  backlight_ret A = 0 ->
  attach_ret A < 0 ->
  let p := panel_alloc_ptr A in
  exists w',
    ili9488_dsi_probe K A MS compatible dev w = Some (attach_ret A, w') /\
    plog w' =
      plog w ++
      [PanelAlloc p; SetDrvdata dev p;
       GpiodGet "reset" GPIOD_OUT_LOW (gpiod_get_ptr A);
       RegulatorGet "power" (regulator_get_ptr A);
       GetPanelOrientation 0; PanelOfBacklight 0;
       PanelAdd p; DsiAttach dev (attach_ret A);
       DevErrProbe (attach_ret A) "failed to attach to DSI host\n";
       PanelRemove p] /\
    registered (plog w') = registered (plog w) /\
    drvdata w' = Some p /\
    dsi_mode_flags w' = mode_flags d /\
    dsi_format w' = Some (format d) /\
    dsi_lanes w' = lanes d.
Proof.
  intros Halloc Hd Hg Hr Ho Hb Ha p.
  rewrite (probe_matched_entry K A MS _ dev d w Halloc Hd).
  apply Z.ltb_lt in Ha.
  probe_unfold. simpl. rewrite Hg. simpl. rewrite Hr. simpl.
  destruct (orientation_out A); simpl; rewrite Ho; simpl; rewrite Hb; simpl;
    rewrite Ha; simpl; eexists; (split; [reflexivity|]); simpl;
    rewrite <- !app_assoc; simpl; (split; [reflexivity|]);
    unfold registered; rewrite !pcount_app; unfold pcount; simpl;
    repeat split; lia.
Qed.

Lemma probe_attach_failure_rolls_back_witness :
  let MS := multi_spec transport_ok in
  exists w',
    ili9488_dsi_probe sample_err_api attach_refused MS
      "focuslcd,e35gh-i-mw800cb" 7%nat probe_state0 = Some (-19, w') /\
    registered (plog w') = registered (plog probe_state0) /\
    drvdata w' = Some 40%nat.
Proof.
  intros MS.
  destruct (probe_attach_failure_rolls_back sample_err_api attach_refused MS
              "focuslcd,e35gh-i-mw800cb" 7%nat (e35gh_i_mw800cb_desc MS)
              probe_state0 eq_refl eq_refl eq_refl eq_refl eq_refl eq_refl)
    as (w' & Hrun & _ & Hreg & Hdrv & _).
  - simpl. lia.
  - exists w'. auto.
Defined.

(** ** Detach *)

Lemma remove_run (A : attach_env) (dev : mipi_dsi_device)
    (w : probe_state) (p : nat) :
  drvdata w = Some p ->
  exists w',
    ili9488_dsi_remove A dev w = Some (tt, w') /\
    plog w' =
      plog w ++
      [DsiDetach dev (detach_ret A)] ++
      (if detach_ret A <? 0
       then [DevErrDetach dev "failed to detach from DSI host: %d\n"
               (detach_ret A)]
       else []) ++
      [PanelRemove p].
Proof.
  intros Hdrv. unfold ili9488_dsi_remove. rewrite Hdrv.
  unfold mipi_dsi_detach, drm_panel_remove, plog_emit, bind, mret.
  destruct (detach_ret A <? 0); simpl; eexists;
    (split; [reflexivity|]); simpl; rewrite <- !app_assoc; reflexivity.
Qed.

(** X10: [remove] of a device that has driver data detaches it once and
    then removes the panel the driver data points at, whatever the detach
    returned; a failed detach is only logged.  The instance, the driver
    data and the DSI configuration are left as they are. *)
Theorem remove_always_removes_panel
    (A : attach_env) (dev : mipi_dsi_device)
    (w : probe_state) (p : nat) :
  drvdata w = Some p ->
  exists w',
    ili9488_dsi_remove A dev w = Some (tt, w') /\
    plog w' =
      plog w ++
      [DsiDetach dev (detach_ret A)] ++
      (if detach_ret A <? 0
       then [DevErrDetach dev "failed to detach from DSI host: %d\n"
               (detach_ret A)]
       else []) ++
      [PanelRemove p] /\
    registered (plog w') = registered (plog w) - 1 /\
    cell w' = cell w /\ drvdata w' = drvdata w /\
    dsi_mode_flags w' = dsi_mode_flags w /\
    dsi_format w' = dsi_format w /\ dsi_lanes w' = dsi_lanes w.
Proof.
  intros Hdrv. unfold ili9488_dsi_remove. rewrite Hdrv.
  unfold mipi_dsi_detach, drm_panel_remove, plog_emit, bind, mret.
  destruct (detach_ret A <? 0); simpl; eexists;
    (split; [reflexivity|]); simpl; rewrite <- !app_assoc; simpl;
    (split; [reflexivity|]);
    unfold registered; rewrite !pcount_app; unfold pcount; simpl;
    repeat split; try reflexivity; try exact Hdrv; lia.
Qed.

Lemma remove_always_removes_panel_witness :
  exists w',
    ili9488_dsi_remove attach_refused 7%nat
      {| cell := None; drvdata := Some 40%nat; dsi_mode_flags := [];
         dsi_format := None; dsi_lanes := 0; plog := [PanelAdd 40%nat] |} =
      Some (tt, w') /\
    plog w' =
      [PanelAdd 40%nat] ++
      [DsiDetach 7%nat (-19)] ++
      [DevErrDetach 7%nat "failed to detach from DSI host: %d\n" (-19)] ++
      [PanelRemove 40%nat].
Proof.
  destruct (remove_always_removes_panel attach_refused 7%nat
              {| cell := None; drvdata := Some 40%nat; dsi_mode_flags := [];
                 dsi_format := None; dsi_lanes := 0;
                 plog := [PanelAdd 40%nat] |} 40%nat eq_refl)
    as (w' & Hrun & Hlog & _).
  exists w'. split; [exact Hrun | exact Hlog].
Defined.

(** X11: a [probe] that succeeds followed by [remove]: the panel that was
    added is the one removed, so that no panel is left registered, the
    device was attached once and detached once, and this whatever the
    detach returns. *)
Theorem probe_then_remove_balanced
    (K : err_api) (A : attach_env) (MS : multi_sem)
    (dev : mipi_dsi_device) (w : probe_state) :
  IS_ERR K (panel_alloc_ptr A) = false ->
  attach_steps_ok K A = true ->
  exists w1 w2,
    ili9488_dsi_probe K A MS "focuslcd,e35gh-i-mw800cb" dev w =
      Some (0, w1) /\
    ili9488_dsi_remove A dev w1 = Some (tt, w2) /\
    registered (plog w1) = registered (plog w) + 1 /\
    registered (plog w2) = registered (plog w) /\
    exists mid,
      plog w2 = plog w ++ mid /\
      filter (fun e => is_panel_add e || is_panel_remove e) mid =
        [PanelAdd (panel_alloc_ptr A); PanelRemove (panel_alloc_ptr A)] /\
      filter (fun e => match e with
                       | DsiAttach _ _ | DsiDetach _ _ => true
                       | _ => false
                       end) mid =
        [DsiAttach dev (attach_ret A); DsiDetach dev (detach_ret A)].
Proof.
  intros Halloc Hok.
  pose proof (probe_matched_success K A dev (e35gh_i_mw800cb_desc MS)
                {| cell := cell w; drvdata := drvdata w;
                   dsi_mode_flags := dsi_mode_flags w;
                   dsi_format := dsi_format w; dsi_lanes := dsi_lanes w;
                   plog := plog w ++ [PanelAlloc (panel_alloc_ptr A)] |}
                Hok) as Hm.
  pose proof (probe_matched_entry K A MS "focuslcd,e35gh-i-mw800cb" dev
                (e35gh_i_mw800cb_desc MS) w Halloc eq_refl) as Hprobe.
  rewrite Hm in Hprobe. cbn [plog] in Hprobe.
  rewrite <- app_assoc in Hprobe. cbn [app] in Hprobe.
  match type of Hprobe with _ = Some (0, ?x) => set (w1 := x) in * end.
  assert (Hdrv : drvdata w1 = Some (panel_alloc_ptr A)) by reflexivity.
  destruct (remove_run A dev w1 (panel_alloc_ptr A) Hdrv)
    as (w2 & Hrem & Hlog2).
  exists w1, w2. split; [exact Hprobe|]. split; [exact Hrem|].
  assert (Hlog1 : plog w1 = plog w ++
                  [PanelAlloc (panel_alloc_ptr A);
                   SetDrvdata dev (panel_alloc_ptr A);
                   GpiodGet "reset" GPIOD_OUT_LOW (gpiod_get_ptr A);
                   RegulatorGet "power" (regulator_get_ptr A);
                   GetPanelOrientation 0;
                   PanelOfBacklight 0;
                   PanelAdd (panel_alloc_ptr A);
                   DsiAttach dev (attach_ret A)]) by reflexivity.
  rewrite Hlog2, Hlog1.
  split; [|split].
  - unfold registered. rewrite !pcount_app. unfold pcount. simpl. lia.
  - unfold registered. rewrite !pcount_app.
    destruct (detach_ret A <? 0); unfold pcount; simpl; lia.
  - eexists. split; [rewrite <- app_assoc; reflexivity|].
    destruct (detach_ret A <? 0); split; reflexivity.
Qed.

Lemma probe_then_remove_balanced_witness :
  let MS := multi_spec transport_ok in
  exists w1 w2,
    ili9488_dsi_probe sample_err_api attach_ok MS
      "focuslcd,e35gh-i-mw800cb" 7%nat probe_state0 = Some (0, w1) /\
    ili9488_dsi_remove attach_ok 7%nat w1 = Some (tt, w2) /\
    registered (plog w1) = registered (plog probe_state0) + 1 /\
    registered (plog w2) = registered (plog probe_state0).
Proof.
  intros MS.
  destruct (probe_then_remove_balanced sample_err_api attach_ok MS 7%nat
              probe_state0 eq_refl eq_refl)
    as (w1 & w2 & Hp & Hr & H1 & H2 & _).
  exists w1, w2. auto.
Defined.



(** X13: what [probe] set up is what the driver then works with.  On the
    instance a successful [probe] leaves, [get_orientation] returns the
    orientation read at attach time, [get_modes] hands out the mode of the
    e35gh descriptor, and [power_on] enables the supply obtained as "power"
    and pulses the line obtained as "reset". *)
Theorem probed_instance_drives_its_resources
    (K : err_api) (A : attach_env) (MS : multi_sem)
    (dev : mipi_dsi_device) (w : probe_state) (E : hw_env) (tr : trace) :
  IS_ERR K (panel_alloc_ptr A) = false ->
  attach_steps_ok K A = true ->
  exists w1 ili,
    ili9488_dsi_probe K A MS "focuslcd,e35gh-i-mw800cb" dev w =
      Some (0, w1) /\
    cell w1 = Some ili /\
    let s := {| inst := ili; hw := tr |} in
    let v := regulator_enable_ret E tr (regulator_get_ptr A) in
    ili9488_get_orientation s =
      (match orientation_out A with Some o => o | None => 0 end, s) /\
    (forall (drm_connector : Type)
            (helper : drm_connector -> drm_display_mode -> Z * drm_connector)
            (connector : drm_connector),
       ili9488_get_modes drm_connector helper connector s =
         (helper connector e35gh_i_mw800cb_display_mode, s)) /\
    (0 <= v ->
     ili9488_power_on E s =
       (0, {| inst := ili;
              hw := tr ++
                    [RegulatorEnable (regulator_get_ptr A) v;
                     GpiodSetValue (gpiod_get_ptr A) 0;
                     UsleepRange 1000 5000;
                     GpiodSetValue (gpiod_get_ptr A) 1;
                     UsleepRange 1000 5000;
                     GpiodSetValue (gpiod_get_ptr A) 0;
                     UsleepRange 5000 10000] |})).
Proof.
  intros Halloc Hok.
  pose proof (probe_matched_success K A dev (e35gh_i_mw800cb_desc MS)
                {| cell := cell w; drvdata := drvdata w;
                   dsi_mode_flags := dsi_mode_flags w;
                   dsi_format := dsi_format w; dsi_lanes := dsi_lanes w;
                   plog := plog w ++ [PanelAlloc (panel_alloc_ptr A)] |}
                Hok) as Hm.
  pose proof (probe_matched_entry K A MS "focuslcd,e35gh-i-mw800cb" dev
                (e35gh_i_mw800cb_desc MS) w Halloc eq_refl) as Hprobe.
  rewrite Hm in Hprobe.
  eexists. eexists. split; [exact Hprobe|]. split; [reflexivity|].
  cbv zeta. split; [reflexivity|]. split; [reflexivity|].
  intros Hv.
  match goal with
  | |- ili9488_power_on E ?s = _ => exact (power_on_enabled E s Hv)
  end.
Qed.

Lemma probed_instance_drives_its_resources_witness :
  let MS := multi_spec transport_ok in
  exists w1 ili,
    ili9488_dsi_probe sample_err_api attach_ok MS
      "focuslcd,e35gh-i-mw800cb" 7%nat probe_state0 = Some (0, w1) /\
    cell w1 = Some ili /\
    ili9488_get_orientation {| inst := ili; hw := [] |} =
      (1, {| inst := ili; hw := [] |}).
Proof.
  intros MS.
  destruct (probed_instance_drives_its_resources sample_err_api attach_ok MS
              7%nat probe_state0 env_ok [] eq_refl eq_refl)
    as (w1 & ili & Hp & Hc & Ho & _).
  exists w1, ili. auto.
Defined.
